(** * cert_create/src/ext.c: TBB certificate extensions

    A shallow embedding of [ext_init], [ext_new], [ext_new_hash],
    [ext_new_nvcounter] and [ext_new_key] of
    arm-trusted-firmware/tools/cert_create/src/ext.c, and the properties of
    the extension registry and of the extension encoders.

    The functions of ext.c are glue over OpenSSL.  The calls that change
    OpenSSL's object and extension-method tables ([OBJ_create],
    [X509V3_EXT_add_alias], [X509V3_EXT_add]) are a parameter of the
    development: an arbitrary transition function over an arbitrary table
    state, so every theorem holds whatever the toolkit answers.  The world
    also keeps the list of those calls in the order ext.c made them.

    The DER routines of OpenSSL that the encoders call are modelled from the
    spec and from the DER rules; C integers are [Z] with the conversion to
    [int] written out. *)

From Stdlib Require Import String.
From Stdlib Require Import Strings.Byte.
From Stdlib Require Import ZArith List Bool Lia.
Import ListNotations.
Local Open Scope Z_scope.

(** ** C integer types *)

Definition INT_MAX : Z := 2147483647.
Definition INT_MIN : Z := -2147483648.

(** Conversion of an integer value to [int] (32 bits, two's complement), as
    at the call [ASN1_OCTET_STRING_set(hash, buf, len)] where [len] is a
    [size_t] and the parameter an [int]. *)
Definition to_int (z : Z) : Z := (z + 2147483648) mod 4294967296 - 2147483648.

(** ** Bytes *)

Definition Z_of_byte (b : byte) : Z := Z.of_N (Byte.to_N b).

Definition byte_of_Z (z : Z) : byte :=
  match Byte.of_N (Z.to_N (z mod 256)) with
  | Some b => b
  | None => "000"%byte
  end.

(** ** Data model (ext.h, openssl/x509v3.h) *)

(** A [const char *]: [None] is the NULL pointer. *)
Definition cstr : Type := option string.

Definition V_ASN1_INTEGER : Z := 2.
Definition V_ASN1_OCTET_STRING : Z := 4.

Inductive ASN1_ITEM : Type :=
| ASN1_INTEGER_it
| ASN1_OCTET_STRING_it.

Inductive X509V3_EXT_I2S : Type :=
| i2s_ASN1_INTEGER
| i2s_ASN1_OCTET_STRING.

Inductive X509V3_EXT_S2I : Type :=
| s2i_ASN1_INTEGER
| s2i_ASN1_OCTET_STRING.

(** The fields of [X509V3_EXT_METHOD] that ext.c writes; a NULL pointer is
    [None].  Every other field stays zero after the [memset]. *)
Record X509V3_EXT_METHOD : Type := mkMethod {
  ext_nid : Z;
  it : option ASN1_ITEM;
  i2s : option X509V3_EXT_I2S;
  s2i : option X509V3_EXT_S2I
}.

(** [memset(m, 0x0, sizeof(X509V3_EXT_METHOD))] *)
Definition method_zero : X509V3_EXT_METHOD :=
  {| ext_nid := 0; it := None; i2s := None; s2i := None |}.

(** The fields set by [case V_ASN1_INTEGER] and by
    [case V_ASN1_OCTET_STRING] of [ext_init] on the zeroed record. *)
Definition integer_method : X509V3_EXT_METHOD :=
  {| ext_nid := ext_nid method_zero; it := Some ASN1_INTEGER_it;
     i2s := Some i2s_ASN1_INTEGER; s2i := Some s2i_ASN1_INTEGER |}.

Definition octet_string_method : X509V3_EXT_METHOD :=
  {| ext_nid := ext_nid method_zero; it := Some ASN1_OCTET_STRING_it;
     i2s := Some i2s_ASN1_OCTET_STRING; s2i := Some s2i_ASN1_OCTET_STRING |}.

(** [m->ext_nid = nid] *)
Definition set_ext_nid (m : X509V3_EXT_METHOD) (nid : Z) : X509V3_EXT_METHOD :=
  {| ext_nid := nid; it := it m; i2s := i2s m; s2i := s2i m |}.

(** [ext_t] of ext.h.  The [method] field is only written by [ext_init]
    (it is the storage of the record handed to [X509V3_EXT_add]) and is
    represented by that record at the call. *)
Record ext_t : Type := mkExt {
  oid : cstr;
  sn : cstr;
  ln : cstr;
  type : Z;
  alias : Z
}.

(** The terminating entry of an extension array: [{ 0 }]. *)
Definition ext_end : ext_t :=
  {| oid := None; sn := None; ln := None; type := 0; alias := 0 |}.

Record ASN1_OBJECT : Type := mkObject {
  obj_oid : string;
  obj_sn : cstr;
  obj_ln : cstr;
  obj_nid : Z
}.

(** [X509_EXTENSION]: object, critical flag and the octet string [value]. *)
Record X509_EXTENSION : Type := mkExtension {
  object : ASN1_OBJECT;
  critical : bool;
  value : list byte
}.

(** ** The toolkit's strings and DER routines *)

(** [strlen]: the number of bytes before the first NUL.  Memory after the
    buffer is not represented: the count stops at the end of the list. *)
Fixpoint strlen (s : list byte) : Z :=
  match s with
  | [] => 0
  | b :: s' => if Z_of_byte b =? 0 then 0 else 1 + strlen s'
  end.

(** Modelled from the spec: "payload bytes are copied into the encoded
    form" (section 3; OpenSSL's [ASN1_OCTET_STRING_set] is not part of the
    repository).  [ASN1_OCTET_STRING_set(str, data, len)] on a fresh string:
    the string becomes a copy of [len] bytes of [data]; a negative [len]
    stands for [strlen(data)]. *)
Definition ASN1_OCTET_STRING_set (data : list byte) (len : Z) : list byte :=
  let len := if len <? 0 then strlen data else len in
  firstn (Z.to_nat len) data.

(** Modelled from the spec: the toolkit's integer constructor (section 1;
    OpenSSL's [ASN1_INTEGER_set] is not part of the repository).
    [ASN1_INTEGER_set(a, v)] on a fresh integer: the integer holds the
    [long] [v]. *)
Definition ASN1_INTEGER_set (v : Z) : Z := v.

(** The octets of a length above 127, most significant first; [fuel] is the
    size of the toolkit's [int] lengths in bytes. *)
Fixpoint length_octets (fuel : nat) (l : Z) : list byte :=
  match fuel with
  | O => []
  | S fuel' =>
      if l <=? 0 then []
      else length_octets fuel' (Z.shiftr l 8) ++ [byte_of_Z (Z.land l 255)]
  end.

(** Modelled from the spec: the definite-length octets of the DER
    tag-length-value encoding (section 1 of the spec; OpenSSL's
    [ASN1_put_length] is not part of the repository).  Short form up to 127,
    long form above. *)
Definition asn1_put_length (len : Z) : list byte :=
  if len <=? 127 then [byte_of_Z len]
  else
    let ds := length_octets 4 len in
    byte_of_Z (Z.lor (Z.of_nat (length ds)) 128) :: ds.

(** Modelled from the spec: [octet_string_encode(bytes) -> der_bytes] of the
    toolkit (OpenSSL's [i2d_ASN1_OCTET_STRING] is not part of the
    repository): tag 0x04, definite length, the bytes.  The first component
    is the [int] the call returns, the second the bytes it writes.  The
    toolkit refuses an encoding whose size is not below [INT_MAX]: the call
    then returns -1 and writes nothing (the pointer stays NULL). *)
Definition i2d_ASN1_OCTET_STRING (a : list byte) : Z * list byte :=
  let der := "004"%byte :: asn1_put_length (Z.of_nat (length a)) ++ a in
  if INT_MAX <=? Z.of_nat (length der) then (-1, [])
  else (Z.of_nat (length der), der).

(** The content octets of an integer: minimal two's complement, most
    significant first; [fuel] is the size of a [long] in bytes. *)
Fixpoint integer_octets (fuel : nat) (v : Z) : list byte :=
  match fuel with
  | O => []
  | S fuel' =>
      if (-128 <=? v) && (v <? 128) then [byte_of_Z v]
      else integer_octets fuel' (v / 256) ++ [byte_of_Z v]
  end.

(** Modelled from the spec: [integer_encode(value) -> der_bytes] of the
    toolkit, "minimal two's-complement DER integer encoding" (OpenSSL's
    [i2d_ASN1_INTEGER] is not part of the repository): tag 0x02, definite
    length, the content octets. *)
Definition i2d_ASN1_INTEGER (a : Z) : Z * list byte :=
  let c := integer_octets 8 a in
  let der := "002"%byte :: asn1_put_length (Z.of_nat (length c)) ++ c in
  (to_int (Z.of_nat (length der)), der).

(** The value of big-endian octets. *)
Definition be_value (ds : list byte) : Z :=
  fold_left (fun acc d => acc * 256 + Z_of_byte d) ds 0.

(** Modelled from the spec: decoding of DER definite-length octets, the
    inverse of [asn1_put_length].  The indefinite form and length octets that
    are not minimal are refused. *)
Definition asn1_get_length (p : list byte) : option (Z * list byte) :=
  match p with
  | [] => None
  | b :: rest =>
      let v := Z_of_byte b in
      if v <? 128 then Some (v, rest)
      else
        let n := Z.to_nat (Z.land v 127) in
        let ds := firstn n rest in
        if (length ds =? n)%nat && (128 <=? be_value ds)
           && negb (Z_of_byte (hd "000"%byte ds) =? 0)
        then Some (be_value ds, skipn n rest)
        else None
  end.

(** The contents of a DER value with the given tag; nothing may follow it. *)
Definition der_contents (tag : byte) (der : list byte) : option (list byte) :=
  match der with
  | [] => None
  | t :: p =>
      if Byte.eqb t tag then
        match asn1_get_length p with
        | Some (len, c) => if len =? Z.of_nat (length c) then Some c else None
        | None => None
        end
      else None
  end.

(** Modelled from the spec: "DER-decoded as an octet string" (OpenSSL's
    [d2i_ASN1_OCTET_STRING] is not part of the repository). *)
Definition d2i_ASN1_OCTET_STRING (der : list byte) : option (list byte) :=
  der_contents "004"%byte der.

(** The two's complement value of integer content octets. *)
Definition c2i_ASN1_INTEGER (c : list byte) : Z :=
  match c with
  | [] => 0
  | b :: c' =>
      fold_left (fun acc d => acc * 256 + Z_of_byte d) c'
        (if 128 <=? Z_of_byte b then Z_of_byte b - 256 else Z_of_byte b)
  end.

(** DER's rule for integers: at least one octet, and the first nine bits
    neither all zero nor all one. *)
Definition der_integer_minimal (c : list byte) : bool :=
  match c with
  | [] => false
  | [_] => true
  | b0 :: b1 :: _ =>
      negb (((Z_of_byte b0 =? 0) && (Z_of_byte b1 <? 128))
            || ((Z_of_byte b0 =? 255) && (128 <=? Z_of_byte b1)))
  end.

(** The content octets of a DER integer, refused when they are not minimal. *)
Definition d2i_ASN1_INTEGER_contents (der : list byte) : option (list byte) :=
  match der_contents "002"%byte der with
  | Some c => if der_integer_minimal c then Some c else None
  | None => None
  end.

(** Modelled from the spec: "DER-decoded as an integer" (OpenSSL's
    [d2i_ASN1_INTEGER] is not part of the repository). *)
Definition d2i_ASN1_INTEGER (der : list byte) : option Z :=
  option_map c2i_ASN1_INTEGER (d2i_ASN1_INTEGER_contents der).

(** A memory BIO: the bytes written and not yet read. *)
Definition BIO : Type := list byte.

(** Modelled from the spec: the "bounded intermediate buffer" captures at
    most its size of the serialized form (section 4.2; OpenSSL's [BIO_read]
    is not part of the repository).  [BIO_read(b, data, len)] on a memory
    BIO: the return value, the bytes stored in [data] and the BIO
    afterwards.  An empty BIO returns -1. *)
Definition BIO_read (b : BIO) (len : Z) : Z * list byte * BIO :=
  match b with
  | [] => (-1, [], b)
  | _ :: _ =>
      let out := firstn (Z.to_nat len) b in
      (Z.of_nat (length out), out, skipn (Z.to_nat len) b)
  end.

(** How one iteration of the [while] loop ends. *)
Inductive ctl : Type :=
| Next
| Return (r : Z).

(** ** The toolkit and the world *)

(** The calls of ext.c that change the toolkit's tables. *)
Inductive call : Type :=
| Call_OBJ_create (oid sn ln : cstr)
| Call_X509V3_EXT_add_alias (nid_to nid_from : Z)
| Call_X509V3_EXT_add (m : X509V3_EXT_METHOD).

Inductive FILE : Type := stdout | stderr.

(** The world of ext.c: the toolkit's process-wide tables [registry] (object
    identifiers and extension methods), the table-changing calls made so far,
    and the streams on which the error queue was printed. *)
Record world (T : Type) : Type := mkWorld {
  registry : T;
  calls : list call;
  diag : list FILE
}.

Arguments mkWorld {T} _ _ _.
Arguments registry {T} _.
Arguments calls {T} _.
Arguments diag {T} _.

Definition M (T A : Type) : Type := world T -> A * world T.

Definition ret {T A : Type} (a : A) : M T A := fun w => (a, w).

Definition bind {T A B : Type} (m : M T A) (k : A -> M T B) : M T B :=
  fun w => let (a, w') := m w in k a w'.

Notation "x <- m ;; k" := (bind m (fun x => k))
  (at level 61, m at next level, right associativity).

Definition ERR_print_errors_fp {T : Type} (fp : FILE) : M T unit :=
  fun w =>
    (tt, {| registry := registry w; calls := calls w; diag := diag w ++ [fp] |}).

Section Ext.

(** The toolkit's behaviour on each table-changing call: return value and
    new tables. *)
Variable T : Type.
Variable toolkit : call -> T -> Z * T.

(** [OBJ_nid2obj]: a lookup in the object table. *)
Variable OBJ_nid2obj : Z -> T -> option ASN1_OBJECT.

(** Public keys, and [i2d_PUBKEY]: the DER SubjectPublicKeyInfo of a key,
    [None] when the toolkit cannot serialize it. *)
Variable EVP_PKEY : Type.
Variable i2d_PUBKEY : EVP_PKEY -> option (list byte).

(** A call into the toolkit: the tables change as the toolkit decides and
    the call is appended to the list of calls. *)
Definition invoke (c : call) : M T Z :=
  fun w =>
    let (r, t) := toolkit c (registry w) in
    (r, {| registry := t; calls := calls w ++ [c]; diag := diag w |}).

Definition OBJ_create (oid sn ln : cstr) : M T Z :=
  invoke (Call_OBJ_create oid sn ln).

Definition X509V3_EXT_add_alias (nid_to nid_from : Z) : M T Z :=
  invoke (Call_X509V3_EXT_add_alias nid_to nid_from).

Definition X509V3_EXT_add (m : X509V3_EXT_METHOD) : M T Z :=
  invoke (Call_X509V3_EXT_add m).

(** ** ext_init *)

(** Lines 59-85: the body of the loop, for an entry whose [oid] is set. *)
Definition ext_init_body (ext : ext_t) : M T ctl :=
  nid <- OBJ_create (oid ext) (sn ext) (ln ext) ;;
  if negb (alias ext =? 0) then
    _ <- X509V3_EXT_add_alias nid (alias ext) ;;
    ret Next
  else
    let register (m : X509V3_EXT_METHOD) : M T ctl :=
      let m := set_ext_nid m nid in
      r <- X509V3_EXT_add m ;;
      if r =? 0 then
        _ <- ERR_print_errors_fp stdout ;;
        ret (Return 1)
      else ret Next in
    if type ext =? V_ASN1_INTEGER then register integer_method
    else if type ext =? V_ASN1_OCTET_STRING then register octet_string_method
    else ret Next.

(** The [while] loop from [&tbb_ext[i]] on; [rest] is the array from index
    [i].  The result is the return value of [ext_init], or [None] when the
    loop runs past the last entry of the array (no entry with a NULL [oid]:
    the C code then reads outside the array). *)
Fixpoint ext_init_loop (rest : list ext_t) : M T (option Z) :=
  match rest with
  | [] => ret None
  | ext :: rest' =>
      match oid ext with
      | None => ret (Some 0)
      | Some _ =>
          c <- ext_init_body ext ;;
          match c with
          | Next => ext_init_loop rest'
          | Return r => ret (Some r)
          end
      end
  end.

Definition ext_init (tbb_ext : list ext_t) : M T (option Z) :=
  ext_init_loop tbb_ext.

(** ** The encoders *)

(** Modelled from the spec: [make_extension(numeric_id, critical,
    der_bytes) -> extension_record], for a [numeric_id] that "must already
    exist in the Registry, or in the underlying toolkit's built-in set"
    (sections 3 and 6; OpenSSL's [X509_EXTENSION_create_by_NID] is not part
    of the repository).  [X509_EXTENSION_create_by_NID(NULL, nid, crit,
    data)]: NULL when [OBJ_nid2obj(nid)] is NULL; the extension holds a copy
    of [data]. *)
Definition X509_EXTENSION_create_by_NID (nid crit : Z) (data : list byte)
  : M T (option X509_EXTENSION) :=
  fun w =>
    match OBJ_nid2obj nid (registry w) with
    | None => (None, w)
    | Some obj =>
        (Some {| object := obj; critical := negb (crit =? 0); value := data |},
         w)
    end.

Definition ext_new (nid crit : Z) (data : list byte) (len : Z)
  : M T (option X509_EXTENSION) :=
  let ext_data := ASN1_OCTET_STRING_set data len in
  ex <- X509_EXTENSION_create_by_NID nid crit ext_data ;;
  ret ex.

(** [buf] is the caller's buffer and [len] the [size_t] length passed with
    it. *)
Definition ext_new_hash (nid crit : Z) (buf : list byte) (len : Z)
  : M T (option X509_EXTENSION) :=
  let hash := ASN1_OCTET_STRING_set buf (to_int len) in
  let sz := fst (i2d_ASN1_OCTET_STRING hash) in
  let p := snd (i2d_ASN1_OCTET_STRING hash) in
  ex <- ext_new nid crit p sz ;;
  ret ex.

Definition ext_new_nvcounter (nid crit : Z) (value : Z)
  : M T (option X509_EXTENSION) :=
  let counter := ASN1_INTEGER_set value in
  let sz := fst (i2d_ASN1_INTEGER counter) in
  let p := snd (i2d_ASN1_INTEGER counter) in
  ex <- ext_new nid crit p sz ;;
  ret ex.

(** Modelled from the spec: [public_key_to_der(key_handle) -> der_bytes]
    (or failure) (section 6; OpenSSL's [i2d_PUBKEY_bio] is not part of the
    repository).  [i2d_PUBKEY_bio(bp, k)]: 1 when the encoding of the key was
    written to the BIO, 0 when there is no encoding to write. *)
Definition i2d_PUBKEY_bio (bp : BIO) (k : EVP_PKEY) : Z * BIO :=
  match i2d_PUBKEY k with
  | None => (0, bp)
  | Some der =>
      if Z.of_nat (length der) <=? 0 then (0, bp) else (1, bp ++ der)
  end.

(** [p] is the buffer of 4096 bytes; only the [sz] bytes that [BIO_read]
    stored in it are represented. *)
Definition ext_new_key (nid crit : Z) (k : EVP_PKEY)
  : M T (option X509_EXTENSION) :=
  let mem : BIO := [] in
  let (r, mem) := i2d_PUBKEY_bio mem k in
  if r <=? 0 then
    _ <- ERR_print_errors_fp stderr ;;
    ret None
  else
    let '(sz, p, _) := BIO_read mem 4096 in
    ex <- ext_new nid crit p sz ;;
    ret ex.

End Ext.

Arguments invoke {T} toolkit c _.
Arguments OBJ_create {T} toolkit oid sn ln _.
Arguments X509V3_EXT_add_alias {T} toolkit nid_to nid_from _.
Arguments X509V3_EXT_add {T} toolkit m _.
Arguments ext_init_body {T} toolkit ext _.
Arguments ext_init_loop {T} toolkit rest _.
Arguments ext_init {T} toolkit tbb_ext _.
Arguments X509_EXTENSION_create_by_NID {T} OBJ_nid2obj nid crit data _.
Arguments ext_new {T} OBJ_nid2obj nid crit data len _.
Arguments ext_new_hash {T} OBJ_nid2obj nid crit buf len _.
Arguments ext_new_nvcounter {T} OBJ_nid2obj nid crit value _.
Arguments i2d_PUBKEY_bio {EVP_PKEY} i2d_PUBKEY bp k.
Arguments ext_new_key {T} OBJ_nid2obj {EVP_PKEY} i2d_PUBKEY nid crit k _.

(** The [oid] arguments of the [OBJ_create] calls of a list of calls. *)
Definition interned (cs : list call) : list cstr :=
  flat_map (fun c => match c with
                     | Call_OBJ_create o _ _ => [o]
                     | _ => []
                     end) cs.

(** ** The registration pass in the words of the spec

    Section 4.1 of the spec describes [initialize] without reference to
    the loop of ext.c.  It is written down here from those words, on the
    toolkit's calls directly, and [ext_init] is compared with it. *)

(** The closed set of value kinds (section 3), with the kinds that are not
    supported. *)
Inductive value_kind : Type :=
| Integer
| OctetString
| Unsupported.

Definition kind_of_type (type : Z) : value_kind :=
  if type =? V_ASN1_INTEGER then Integer
  else if type =? V_ASN1_OCTET_STRING then OctetString
  else Unsupported.

Section Initialize.

Variable T : Type.
Variable toolkit : call -> T -> Z * T.

(** "For each definition": the triple is interned, which gives the
    [numeric_id]; with an alias the [numeric_id] is registered as sharing
    the behaviour of the aliased extension; otherwise the built-in integer
    or octet-string methods are attached, and any other kind is skipped;
    a failure to attach aborts with a diagnostic.  The result is [false]
    for the abort. *)
Definition register_definition (d : ext_t) (w : world T) : bool * world T :=
  let intern := Call_OBJ_create (oid d) (sn d) (ln d) in
  let (numeric_id, t1) := toolkit intern (registry w) in
  let attach (m : X509V3_EXT_METHOD) : bool * world T :=
    let (r, t2) := toolkit (Call_X509V3_EXT_add m) t1 in
    if r =? 0 then
      (false, {| registry := t2;
                 calls := calls w ++ [intern; Call_X509V3_EXT_add m];
                 diag := diag w ++ [stdout] |})
    else
      (true, {| registry := t2;
                calls := calls w ++ [intern; Call_X509V3_EXT_add m];
                diag := diag w |}) in
  if alias d =? 0 then
    match kind_of_type (type d) with
    | Integer =>
        attach {| ext_nid := numeric_id; it := Some ASN1_INTEGER_it;
                  i2s := Some i2s_ASN1_INTEGER;
                  s2i := Some s2i_ASN1_INTEGER |}
    | OctetString =>
        attach {| ext_nid := numeric_id; it := Some ASN1_OCTET_STRING_it;
                  i2s := Some i2s_ASN1_OCTET_STRING;
                  s2i := Some s2i_ASN1_OCTET_STRING |}
    | Unsupported =>
        (true, {| registry := t1; calls := calls w ++ [intern];
                  diag := diag w |})
    end
  else
    let share := Call_X509V3_EXT_add_alias numeric_id (alias d) in
    let (_, t2) := toolkit share t1 in
    (true, {| registry := t2; calls := calls w ++ [intern; share];
              diag := diag w |}).

(** [initialize] on the definitions before the sentinel: each one in
    order, 1 at the first abort, 0 at the end. *)
Fixpoint initialize (definitions : list ext_t) (w : world T) : Z * world T :=
  match definitions with
  | [] => (0, w)
  | d :: rest =>
      let (ok, w') := register_definition d w in
      if ok then initialize rest w' else (1, w')
  end.

End Initialize.

Arguments register_definition {T} toolkit d w.
Arguments initialize {T} toolkit definitions w.

(** ** A toolkit for the examples

    A small toolkit on which the theorems are run: objects get the next free
    identifier, an alias needs a method registered for its target, and the
    method table has room for [room] more entries. *)

Record tables : Type := mkTables {
  objects : list ASN1_OBJECT;
  methods : list X509V3_EXT_METHOD;
  room : nat
}.

Definition sample_toolkit (c : call) (t : tables) : Z * tables :=
  match c with
  | Call_OBJ_create None _ _ => (0, t)
  | Call_OBJ_create (Some o) sn ln =>
      let nid := 1000 + Z.of_nat (length (objects t)) in
      (nid, {| objects := objects t ++ [mkObject o sn ln nid];
               methods := methods t; room := room t |})
  | Call_X509V3_EXT_add_alias nid_to nid_from =>
      match find (fun m => ext_nid m =? nid_from) (methods t), room t with
      | Some m, S n =>
          (1, {| objects := objects t;
                 methods := methods t ++ [set_ext_nid m nid_to]; room := n |})
      | _, _ => (0, t)
      end
  | Call_X509V3_EXT_add m =>
      match room t with
      | S n =>
          (1, {| objects := objects t; methods := methods t ++ [m];
                 room := n |})
      | O => (0, t)
      end
  end.

Definition sample_nid2obj (nid : Z) (t : tables) : option ASN1_OBJECT :=
  find (fun o => obj_nid o =? nid) (objects t).

(** A key of the examples is its own encoding, if it has one. *)
Definition sample_i2d_PUBKEY (k : option (list byte)) : option (list byte) := k.

Definition sample_world (room : nat) : world tables :=
  {| registry := {| objects := []; methods := []; room := room |};
     calls := []; diag := [] |}.

Definition tbb_hash : ext_t :=
  {| oid := Some "1.2.3.4"%string; sn := Some "tbbHash"%string;
     ln := Some "TBB Hash"%string; type := V_ASN1_OCTET_STRING; alias := 0 |}.

Definition tbb_counter : ext_t :=
  {| oid := Some "1.2.3.5"%string; sn := Some "tbbCounter"%string;
     ln := Some "TBB Counter"%string; type := V_ASN1_INTEGER; alias := 0 |}.

Definition tbb_other : ext_t :=
  {| oid := Some "1.2.3.6"%string; sn := Some "tbbOther"%string;
     ln := Some "TBB Other"%string; type := 12; alias := 0 |}.

Definition tbb_alias : ext_t :=
  {| oid := Some "1.2.3.7"%string; sn := Some "tbbAlias"%string;
     ln := Some "TBB Alias"%string; type := 0; alias := 85 |}.

(** An entry whose [oid] points to an empty string. *)
Definition tbb_empty : ext_t :=
  {| oid := Some ""%string; sn := Some "empty"%string;
     ln := Some "Empty"%string; type := V_ASN1_INTEGER; alias := 0 |}.

(** The world after [ext_init] of the two TBB extensions: 1000 is the hash
    extension and 1001 the counter extension. *)
Definition tbb_world : world tables :=
  snd (ext_init sample_toolkit [tbb_hash; tbb_counter; ext_end]
         (sample_world 5)).

(** A SHA-256 digest, 32 bytes 0xAB. *)
Definition sha256_digest : list byte := repeat "171"%byte 32.

(** A buffer of 2^32 zero bytes, the length of which does not fit an
    [int] (with a [size_t] of 64 bits). *)
Definition wide_digest : list byte :=
  repeat "000"%byte (Z.to_nat 4294967296).

(** A key whose encoding has 4097 bytes, and its first 4096 bytes. *)
Definition large_key : option (list byte) :=
  Some (repeat "001"%byte (Z.to_nat 4096) ++ ["002"%byte]).

Definition large_key_head : list byte := repeat "001"%byte (Z.to_nat 4096).

(** * Properties *)

(** ** Bytes and integers *)

Lemma Z_of_byte_range (b : byte) : 0 <= Z_of_byte b < 256.
Proof.
  unfold Z_of_byte. pose proof (Byte.to_N_bounded b). lia.
Qed.

Lemma Z_of_byte_of_Z (z : Z) : Z_of_byte (byte_of_Z z) = z mod 256.
Proof.
  unfold Z_of_byte, byte_of_Z.
  pose proof (Z.mod_pos_bound z 256 ltac:(lia)) as Hm.
  destruct (Byte.of_N (Z.to_N (z mod 256))) eqn:E.
  - apply Byte.to_of_N in E. rewrite E. apply Z2N.id. lia.
  - apply Byte.of_N_None_iff in E. lia.
Qed.

Lemma byte_of_Z_of_byte (b : byte) : byte_of_Z (Z_of_byte b) = b.
Proof.
  unfold byte_of_Z. pose proof (Z_of_byte_range b).
  rewrite Z.mod_small by lia. unfold Z_of_byte.
  rewrite N2Z.id, Byte.of_to_N. reflexivity.
Qed.

Lemma to_int_id (z : Z) : INT_MIN <= z <= INT_MAX -> to_int z = z.
Proof.
  unfold INT_MIN, INT_MAX, to_int. intros H.
  rewrite Z.mod_small by lia. lia.
Qed.

Lemma pow256_succ (n : nat) : 256 ^ Z.of_nat (S n) = 256 * 256 ^ Z.of_nat n.
Proof.
  rewrite Nat2Z.inj_succ, Z.pow_succ_r by lia. reflexivity.
Qed.

Lemma pow256_pos (n : nat) : 0 < 256 ^ Z.of_nat n.
Proof.
  apply Z.pow_pos_nonneg; lia.
Qed.

(** ** Length octets *)

Lemma be_value_app (ds : list byte) (d : byte) :
  be_value (ds ++ [d]) = be_value ds * 256 + Z_of_byte d.
Proof.
  unfold be_value. rewrite fold_left_app. reflexivity.
Qed.

Lemma length_octets_zero (fuel : nat) : length_octets fuel 0 = [].
Proof.
  destruct fuel; reflexivity.
Qed.

Lemma length_octets_step (fuel : nat) (l : Z) :
  0 < l ->
  length_octets (S fuel) l
  = length_octets fuel (l / 256) ++ [byte_of_Z (l mod 256)].
Proof.
  intros Hl. simpl.
  destruct (l <=? 0) eqn:E; [apply Z.leb_le in E; lia|].
  rewrite Z.shiftr_div_pow2 by lia.
  change 255 with (Z.ones 8). rewrite Z.land_ones by lia.
  reflexivity.
Qed.

Lemma length_octets_length (fuel : nat) (l : Z) :
  (length (length_octets fuel l) <= fuel)%nat.
Proof.
  revert l. induction fuel as [|fuel IH]; intros l; simpl; [lia|].
  destruct (l <=? 0); simpl; [lia|].
  rewrite length_app. simpl. specialize (IH (Z.shiftr l 8)). lia.
Qed.

Lemma be_value_length_octets (fuel : nat) (l : Z) :
  0 <= l < 256 ^ Z.of_nat fuel ->
  be_value (length_octets fuel l) = l.
Proof.
  revert l. induction fuel as [|fuel IH]; intros l Hl.
  - simpl in *. unfold be_value. simpl. lia.
  - destruct (Z.eq_dec l 0) as [->|Hnz].
    + rewrite length_octets_zero. reflexivity.
    + rewrite length_octets_step by lia.
      rewrite be_value_app, Z_of_byte_of_Z, Z.mod_mod by lia.
      rewrite pow256_succ in Hl.
      rewrite IH.
      * pose proof (Z.div_mod l 256 ltac:(lia)). lia.
      * split; [apply Z.div_pos; lia|].
        apply Z.div_lt_upper_bound; lia.
Qed.

Lemma length_octets_head (fuel : nat) (l : Z) :
  0 < l < 256 ^ Z.of_nat fuel ->
  length_octets fuel l <> []
  /\ Z_of_byte (hd "000"%byte (length_octets fuel l)) <> 0.
Proof.
  revert l. induction fuel as [|fuel IH]; intros l Hl.
  - simpl in Hl. lia.
  - rewrite length_octets_step by lia.
    rewrite pow256_succ in Hl.
    destruct (Z.eq_dec (l / 256) 0) as [Hq|Hq].
    + rewrite Hq, length_octets_zero. simpl.
      split; [discriminate|].
      rewrite Z_of_byte_of_Z, Z.mod_mod by lia.
      pose proof (Z.div_mod l 256 ltac:(lia)). lia.
    + destruct (IH (l / 256)) as [Hne Hhd].
      * split.
        -- pose proof (Z.div_pos l 256 ltac:(lia) ltac:(lia)). lia.
        -- apply Z.div_lt_upper_bound; lia.
      * destruct (length_octets fuel (l / 256)) as [|d ds]; [congruence|].
        simpl. split; [discriminate|exact Hhd].
Qed.

Lemma asn1_get_length_put (len : Z) (rest : list byte) :
  0 <= len < 4294967296 ->
  asn1_get_length (asn1_put_length len ++ rest) = Some (len, rest).
Proof.
  intros Hlen. unfold asn1_put_length.
  destruct (len <=? 127) eqn:Hshort.
  - apply Z.leb_le in Hshort. simpl.
    rewrite Z_of_byte_of_Z, Z.mod_small by lia.
    destruct (len <? 128) eqn:E; [reflexivity|].
    apply Z.ltb_ge in E. lia.
  - apply Z.leb_gt in Hshort.
    pose proof (length_octets_length 4 len) as Hk.
    pose proof (be_value_length_octets 4 len ltac:(simpl; lia)) as Hv.
    destruct (length_octets_head 4 len ltac:(simpl; lia)) as [Hne Hhd].
    remember (length_octets 4 len) as ds eqn:Hds.
    assert (Hfirst : Z_of_byte (byte_of_Z (Z.lor (Z.of_nat (length ds)) 128))
                     = Z.of_nat (length ds) + 128).
    { rewrite Z_of_byte_of_Z.
      destruct ds as [|d0 [|d1 [|d2 [|d3 [|d4 ds]]]]]; simpl in Hk;
        try congruence; try lia; reflexivity. }
    cbn [app asn1_get_length]. rewrite Hfirst.
    destruct (Z.of_nat (length ds) + 128 <? 128) eqn:E;
      [apply Z.ltb_lt in E; lia|].
    assert (Hn : Z.to_nat (Z.land (Z.of_nat (length ds) + 128) 127)
                 = length ds).
    { destruct ds as [|d0 [|d1 [|d2 [|d3 [|d4 ds]]]]]; simpl in Hk;
        try congruence; try lia; reflexivity. }
    rewrite Hn.
    rewrite firstn_app, Nat.sub_diag, firstn_all. simpl firstn.
    rewrite app_nil_r, Nat.eqb_refl, Hv.
    destruct (128 <=? len) eqn:E2; [|apply Z.leb_gt in E2; lia].
    destruct (Z_of_byte (hd "000"%byte ds) =? 0) eqn:E3;
      [apply Z.eqb_eq in E3; congruence|].
    simpl.
    rewrite skipn_app, Nat.sub_diag, skipn_all. reflexivity.
Qed.

Lemma asn1_put_length_length (len : Z) :
  (1 <= length (asn1_put_length len) <= 5)%nat.
Proof.
  unfold asn1_put_length. destruct (len <=? 127); cbn [length]; [lia|].
  pose proof (length_octets_length 4 len). lia.
Qed.

(** ** Octet strings *)

(** An octet string of at most [INT_MAX - 7] bytes is encoded: with the
    header of at most 6 bytes the size stays below [INT_MAX]. *)
Lemma i2d_ASN1_OCTET_STRING_fits (a : list byte) :
  Z.of_nat (length a) <= INT_MAX - 7 ->
  i2d_ASN1_OCTET_STRING a
  = (Z.of_nat (length ("004"%byte
                       :: asn1_put_length (Z.of_nat (length a)) ++ a)),
     "004"%byte :: asn1_put_length (Z.of_nat (length a)) ++ a).
Proof.
  unfold i2d_ASN1_OCTET_STRING. unfold INT_MAX. intros Hlen.
  destruct (2147483647 <=?
            Z.of_nat (length ("004"%byte
                              :: asn1_put_length (Z.of_nat (length a)) ++ a)))
    eqn:E; [|reflexivity].
  apply Z.leb_le in E. cbn [length] in E. rewrite length_app in E.
  pose proof (asn1_put_length_length (Z.of_nat (length a))). lia.
Qed.

Lemma d2i_i2d_ASN1_OCTET_STRING (a : list byte) :
  Z.of_nat (length a) <= INT_MAX - 7 ->
  d2i_ASN1_OCTET_STRING (snd (i2d_ASN1_OCTET_STRING a)) = Some a.
Proof.
  intros Hlen. rewrite i2d_ASN1_OCTET_STRING_fits by exact Hlen.
  unfold d2i_ASN1_OCTET_STRING. cbn [snd der_contents].
  change (Byte.eqb "004"%byte "004"%byte) with true. cbv iota.
  rewrite asn1_get_length_put by (unfold INT_MAX in Hlen; lia).
  rewrite Z.eqb_refl. reflexivity.
Qed.

Lemma i2d_ASN1_OCTET_STRING_size (a : list byte) :
  Z.of_nat (length a) <= INT_MAX - 7 ->
  fst (i2d_ASN1_OCTET_STRING a)
  = Z.of_nat (length (snd (i2d_ASN1_OCTET_STRING a))).
Proof.
  intros Hlen. rewrite i2d_ASN1_OCTET_STRING_fits by exact Hlen.
  reflexivity.
Qed.

(** ** Integers *)

Lemma integer_octets_small (fuel : nat) (v : Z) :
  -128 <= v < 128 -> integer_octets (S fuel) v = [byte_of_Z v].
Proof.
  intros Hv. cbn [integer_octets].
  destruct (-128 <=? v) eqn:E1; [|apply Z.leb_gt in E1; lia].
  destruct (v <? 128) eqn:E2; [|apply Z.ltb_ge in E2; lia].
  reflexivity.
Qed.

Lemma integer_octets_large (fuel : nat) (v : Z) :
  ~ (-128 <= v < 128) ->
  integer_octets (S fuel) v = integer_octets fuel (v / 256) ++ [byte_of_Z v].
Proof.
  intros Hv. cbn [integer_octets].
  destruct (-128 <=? v) eqn:E1; destruct (v <? 128) eqn:E2;
    try reflexivity.
  apply Z.leb_le in E1. apply Z.ltb_lt in E2. lia.
Qed.

Lemma integer_octets_nonempty (fuel : nat) (v : Z) :
  integer_octets (S fuel) v <> [].
Proof.
  destruct (Z_le_dec (-128) v) as [H1|H1];
    [destruct (Z_lt_dec v 128) as [H2|H2]|].
  - rewrite integer_octets_small by lia. discriminate.
  - rewrite integer_octets_large by lia.
    destruct (integer_octets fuel (v / 256)); discriminate.
  - rewrite integer_octets_large by lia.
    destruct (integer_octets fuel (v / 256)); discriminate.
Qed.

Lemma integer_octets_length (fuel : nat) (v : Z) :
  (length (integer_octets fuel v) <= fuel)%nat.
Proof.
  revert v. induction fuel as [|fuel IH]; intros v; cbn [integer_octets].
  - simpl. lia.
  - destruct ((-128 <=? v) && (v <? 128)); cbn [length]; [lia|].
    rewrite length_app. cbn [length]. specialize (IH (v / 256)). lia.
Qed.

Lemma c2i_ASN1_INTEGER_single (v : Z) :
  -128 <= v < 128 -> c2i_ASN1_INTEGER [byte_of_Z v] = v.
Proof.
  intros Hv. unfold c2i_ASN1_INTEGER. cbn [fold_left].
  rewrite Z_of_byte_of_Z.
  destruct (128 <=? v mod 256) eqn:E;
    [apply Z.leb_le in E | apply Z.leb_gt in E];
    Z.div_mod_to_equations; lia.
Qed.

Lemma c2i_ASN1_INTEGER_app (c : list byte) (d : byte) :
  c <> [] ->
  c2i_ASN1_INTEGER (c ++ [d]) = c2i_ASN1_INTEGER c * 256 + Z_of_byte d.
Proof.
  destruct c as [|b c]; [congruence|]. intros _.
  cbn [app c2i_ASN1_INTEGER]. rewrite fold_left_app. reflexivity.
Qed.

Lemma c2i_integer_octets (n : nat) (v : Z) :
  - (128 * 256 ^ Z.of_nat n) <= v < 128 * 256 ^ Z.of_nat n ->
  c2i_ASN1_INTEGER (integer_octets (S n) v) = v.
Proof.
  revert v. induction n as [|n IH]; intros v Hv.
  - change (256 ^ Z.of_nat 0) with 1 in Hv.
    rewrite integer_octets_small by lia.
    apply c2i_ASN1_INTEGER_single. lia.
  - destruct (Z_le_dec (-128) v) as [H1|H1];
      [destruct (Z_lt_dec v 128) as [H2|H2]|].
    + rewrite integer_octets_small by lia.
      apply c2i_ASN1_INTEGER_single. lia.
    + rewrite integer_octets_large by lia.
      rewrite c2i_ASN1_INTEGER_app by apply integer_octets_nonempty.
      rewrite pow256_succ in Hv.
      rewrite IH, Z_of_byte_of_Z by (Z.div_mod_to_equations; lia).
      Z.div_mod_to_equations; lia.
    + rewrite integer_octets_large by lia.
      rewrite c2i_ASN1_INTEGER_app by apply integer_octets_nonempty.
      rewrite pow256_succ in Hv.
      rewrite IH, Z_of_byte_of_Z by (Z.div_mod_to_equations; lia).
      Z.div_mod_to_equations; lia.
Qed.

Lemma der_integer_minimal_app (c x : list byte) :
  (2 <= length c)%nat -> der_integer_minimal (c ++ x) = der_integer_minimal c.
Proof.
  destruct c as [|b0 [|b1 c]]; cbn [length app]; intros Hc; try lia.
  reflexivity.
Qed.

Lemma der_integer_minimal_octets (n : nat) (v : Z) :
  - (128 * 256 ^ Z.of_nat n) <= v < 128 * 256 ^ Z.of_nat n ->
  der_integer_minimal (integer_octets (S n) v) = true.
Proof.
  revert v. induction n as [|n IH]; intros v Hv.
  - change (256 ^ Z.of_nat 0) with 1 in Hv.
    rewrite integer_octets_small by lia. reflexivity.
  - destruct (Z_le_dec (-128) v) as [H1|H1];
      [destruct (Z_lt_dec v 128) as [H2|H2]|];
      [rewrite integer_octets_small by lia; reflexivity| |].
    all: rewrite integer_octets_large by lia.
    all: rewrite pow256_succ in Hv.
    all: assert (Hq : - (128 * 256 ^ Z.of_nat n) <= v / 256
                      < 128 * 256 ^ Z.of_nat n)
           by (Z.div_mod_to_equations; lia).
    all: specialize (IH (v / 256) Hq).
    all: destruct (Z_le_dec (-128) (v / 256)) as [Q1|Q1];
           [destruct (Z_lt_dec (v / 256) 128) as [Q2|Q2]|].
    all: try (rewrite integer_octets_large in * by lia;
              rewrite der_integer_minimal_app; [exact IH|];
              rewrite length_app; cbn [length];
              destruct n as [|n];
              [change (256 ^ Z.of_nat 0) with 1 in Hq; lia|];
              pose proof (integer_octets_nonempty n (v / 256 / 256)) as Hne;
              destruct (integer_octets (S n) (v / 256 / 256));
              [congruence | cbn [length]; lia]).
    all: rewrite integer_octets_small by lia.
    all: cbn [app der_integer_minimal].
    all: rewrite !Z_of_byte_of_Z.
    all: destruct (v / 256 mod 256 =? 0) eqn:E0;
           [apply Z.eqb_eq in E0 | apply Z.eqb_neq in E0].
    all: destruct (v / 256 mod 256 =? 255) eqn:E1;
           [apply Z.eqb_eq in E1 | apply Z.eqb_neq in E1].
    all: destruct (v mod 256 <? 128) eqn:E2;
           [apply Z.ltb_lt in E2 | apply Z.ltb_ge in E2].
    all: destruct (128 <=? v mod 256) eqn:E3;
           [apply Z.leb_le in E3 | apply Z.leb_gt in E3].
    all: try reflexivity.
    all: exfalso; Z.div_mod_to_equations; lia.
Qed.

Lemma fold_octets_range (c : list byte) (n : nat) (acc : Z) :
  - (128 * 256 ^ Z.of_nat n) <= acc < 128 * 256 ^ Z.of_nat n ->
  - (128 * 256 ^ Z.of_nat (n + length c))
  <= fold_left (fun a d => a * 256 + Z_of_byte d) c acc
  < 128 * 256 ^ Z.of_nat (n + length c).
Proof.
  revert n acc. induction c as [|b c IH]; intros n acc Hacc.
  - cbn [length fold_left]. rewrite Nat.add_0_r. exact Hacc.
  - cbn [length fold_left].
    replace (n + S (length c))%nat with (S n + length c)%nat by lia.
    apply IH. rewrite pow256_succ.
    pose proof (Z_of_byte_range b). lia.
Qed.

Lemma c2i_ASN1_INTEGER_range (b : byte) (c : list byte) :
  - (128 * 256 ^ Z.of_nat (length c)) <= c2i_ASN1_INTEGER (b :: c)
  < 128 * 256 ^ Z.of_nat (length c).
Proof.
  unfold c2i_ASN1_INTEGER.
  apply (fold_octets_range c 0).
  change (256 ^ Z.of_nat 0) with 1.
  pose proof (Z_of_byte_range b).
  destruct (128 <=? Z_of_byte b) eqn:E;
    [apply Z.leb_le in E | apply Z.leb_gt in E]; lia.
Qed.

Lemma integer_octets_within (n fuel : nat) (v : Z) :
  - (128 * 256 ^ Z.of_nat n) <= v < 128 * 256 ^ Z.of_nat n ->
  (length (integer_octets fuel v) <= S n)%nat.
Proof.
  revert fuel v. induction n as [|n IH]; intros fuel v Hv.
  - change (256 ^ Z.of_nat 0) with 1 in Hv.
    destruct fuel as [|fuel]; [simpl; lia|].
    rewrite integer_octets_small by lia. simpl. lia.
  - destruct fuel as [|fuel]; [simpl; lia|].
    destruct (Z_le_dec (-128) v) as [H1|H1];
      [destruct (Z_lt_dec v 128) as [H2|H2]|];
      [rewrite integer_octets_small by lia; simpl; lia| |].
    all: rewrite integer_octets_large by lia.
    all: rewrite pow256_succ in Hv.
    all: rewrite length_app; cbn [length].
    all: specialize (IH fuel (v / 256)
                       ltac:(Z.div_mod_to_equations; lia)); lia.
Qed.

(** No content octets with the same value are shorter than those of
    [integer_octets]. *)
Lemma integer_octets_shortest (fuel : nat) (c : list byte) :
  c <> [] ->
  (length (integer_octets fuel (c2i_ASN1_INTEGER c)) <= length c)%nat.
Proof.
  destruct c as [|b c]; [congruence|]. intros _.
  cbn [length]. apply integer_octets_within. apply c2i_ASN1_INTEGER_range.
Qed.

Lemma i2d_ASN1_INTEGER_size (v : Z) :
  fst (i2d_ASN1_INTEGER v) = Z.of_nat (length (snd (i2d_ASN1_INTEGER v))).
Proof.
  unfold i2d_ASN1_INTEGER. cbn [fst snd].
  apply to_int_id. unfold INT_MIN, INT_MAX.
  cbn [length]. rewrite length_app.
  pose proof (asn1_put_length_length
                (Z.of_nat (length (integer_octets 8 v)))).
  pose proof (integer_octets_length 8 v). lia.
Qed.

Lemma d2i_i2d_ASN1_INTEGER (v : Z) :
  - 9223372036854775808 <= v < 9223372036854775808 ->
  d2i_ASN1_INTEGER_contents (snd (i2d_ASN1_INTEGER v))
  = Some (integer_octets 8 v)
  /\ c2i_ASN1_INTEGER (integer_octets 8 v) = v.
Proof.
  intros Hv.
  assert (Hr : - (128 * 256 ^ Z.of_nat 7) <= v < 128 * 256 ^ Z.of_nat 7)
    by (change (256 ^ Z.of_nat 7) with 72057594037927936; lia).
  split; [|apply c2i_integer_octets; exact Hr].
  unfold d2i_ASN1_INTEGER_contents, i2d_ASN1_INTEGER.
  cbn [snd der_contents].
  pose proof (integer_octets_length 8 v).
  change (Byte.eqb "002"%byte "002"%byte) with true. cbv iota.
  rewrite asn1_get_length_put by lia.
  rewrite Z.eqb_refl, der_integer_minimal_octets by exact Hr.
  reflexivity.
Qed.

(** ** The registry: [ext_init] *)

Section Registry.

Variable T : Type.
Variable toolkit : call -> T -> Z * T.

(** The three ways through the loop body. *)

Lemma ext_init_body_alias (ext : ext_t) (w : world T) (nid r : Z) (t2 t3 : T) :
  alias ext <> 0 ->
  toolkit (Call_OBJ_create (oid ext) (sn ext) (ln ext)) (registry w)
  = (nid, t2) ->
  toolkit (Call_X509V3_EXT_add_alias nid (alias ext)) t2 = (r, t3) ->
  ext_init_body toolkit ext w
  = (Next,
     {| registry := t3;
        calls := calls w ++ [Call_OBJ_create (oid ext) (sn ext) (ln ext);
                             Call_X509V3_EXT_add_alias nid (alias ext)];
        diag := diag w |}).
Proof.
  intros Ha H1 H2.
  unfold ext_init_body, bind, OBJ_create, X509V3_EXT_add_alias, invoke, ret.
  rewrite H1. apply Z.eqb_neq in Ha. rewrite Ha. cbn.
  rewrite H2, <- app_assoc. reflexivity.
Qed.

Lemma ext_init_body_skip (ext : ext_t) (w : world T) (nid : Z) (t2 : T) :
  alias ext = 0 ->
  type ext <> V_ASN1_INTEGER ->
  type ext <> V_ASN1_OCTET_STRING ->
  toolkit (Call_OBJ_create (oid ext) (sn ext) (ln ext)) (registry w)
  = (nid, t2) ->
  ext_init_body toolkit ext w
  = (Next,
     {| registry := t2;
        calls := calls w ++ [Call_OBJ_create (oid ext) (sn ext) (ln ext)];
        diag := diag w |}).
Proof.
  intros Ha Hi Ho H1.
  unfold ext_init_body, bind, OBJ_create, invoke, ret.
  rewrite H1, Ha. apply Z.eqb_neq in Hi, Ho. rewrite Hi, Ho.
  reflexivity.
Qed.

Lemma ext_init_body_add (ext : ext_t) (w : world T) (m : X509V3_EXT_METHOD)
      (nid r : Z) (t2 t3 : T) :
  alias ext = 0 ->
  (type ext = V_ASN1_INTEGER /\ m = integer_method)
  \/ (type ext = V_ASN1_OCTET_STRING /\ m = octet_string_method) ->
  toolkit (Call_OBJ_create (oid ext) (sn ext) (ln ext)) (registry w)
  = (nid, t2) ->
  toolkit (Call_X509V3_EXT_add (set_ext_nid m nid)) t2 = (r, t3) ->
  ext_init_body toolkit ext w
  = (if r =? 0 then Return 1 else Next,
     {| registry := t3;
        calls := calls w ++ [Call_OBJ_create (oid ext) (sn ext) (ln ext);
                             Call_X509V3_EXT_add (set_ext_nid m nid)];
        diag := if r =? 0 then diag w ++ [stdout] else diag w |}).
Proof.
  intros Ha Hty H1 H2.
  unfold ext_init_body, bind, OBJ_create, X509V3_EXT_add, invoke, ret,
    ERR_print_errors_fp.
  rewrite H1, Ha.
  destruct Hty as [[Hty ->]|[Hty ->]]; rewrite Hty; cbn;
    rewrite H2, <- app_assoc; destruct (r =? 0); reflexivity.
Qed.

(** The loop body returns from [ext_init] with 1 only. *)
Lemma ext_init_body_return (ext : ext_t) (w w' : world T) (r : Z) :
  ext_init_body toolkit ext w = (Return r, w') -> r = 1.
Proof.
  unfold ext_init_body, bind, OBJ_create, X509V3_EXT_add_alias,
    X509V3_EXT_add, invoke, ret, ERR_print_errors_fp.
  destruct (toolkit (Call_OBJ_create (oid ext) (sn ext) (ln ext))
              (registry w)) as [nid t2].
  destruct (negb (alias ext =? 0)).
  - cbn. destruct (toolkit _ t2). discriminate.
  - destruct (type ext =? V_ASN1_INTEGER);
      [|destruct (type ext =? V_ASN1_OCTET_STRING)]; cbn;
      try discriminate;
      destruct (toolkit _ t2) as [r0 t3]; destruct (r0 =? 0);
      congruence.
Qed.

(** The loop body interns the [oid] of its entry and no other. *)
Lemma ext_init_body_interned (ext : ext_t) (w w' : world T) (c : ctl) :
  ext_init_body toolkit ext w = (c, w') ->
  exists new, calls w' = calls w ++ new /\ interned new = [oid ext].
Proof.
  unfold ext_init_body, bind, OBJ_create, X509V3_EXT_add_alias,
    X509V3_EXT_add, invoke, ret, ERR_print_errors_fp.
  destruct (toolkit (Call_OBJ_create (oid ext) (sn ext) (ln ext))
              (registry w)) as [nid t2].
  destruct (negb (alias ext =? 0)).
  - cbn. destruct (toolkit _ t2). intros [= _ <-]. cbn.
    rewrite <- app_assoc. eexists; split; reflexivity.
  - destruct (type ext =? V_ASN1_INTEGER);
      [|destruct (type ext =? V_ASN1_OCTET_STRING)]; cbn.
    3: intros [= _ <-]; cbn; eexists; split; reflexivity.
    all: destruct (toolkit _ t2) as [r0 t3]; destruct (r0 =? 0);
      intros [= _ <-]; cbn; rewrite <- app_assoc;
      eexists; split; reflexivity.
Qed.

(** Entries that were processed without error are behind the loop. *)
Lemma ext_init_loop_prefix (pre rest : list ext_t) (w w1 : world T) :
  Forall (fun e => oid e <> None) pre ->
  ext_init_loop toolkit (pre ++ [ext_end]) w = (Some 0, w1) ->
  ext_init_loop toolkit (pre ++ rest) w = ext_init_loop toolkit rest w1.
Proof.
  intros Hpre. revert w. induction Hpre as [|d pre Hd Hpre IH]; intros w.
  - cbn. unfold ret. intros [= <-]. reflexivity.
  - cbn [app ext_init_loop].
    destruct (oid d) as [o|]; [|congruence].
    unfold bind.
    destruct (ext_init_body toolkit d w) as [[|r] w'] eqn:Hb.
    + apply IH.
    + unfold ret. intros [= -> _].
      apply ext_init_body_return in Hb. discriminate.
Qed.

(** The loop body does what the spec says of one definition. *)
Lemma ext_init_body_register_definition (ext : ext_t) (w : world T) :
  ext_init_body toolkit ext w
  = (let (ok, w') := register_definition toolkit ext w in
     (if ok then Next else Return 1, w')).
Proof.
  unfold register_definition.
  destruct (toolkit (Call_OBJ_create (oid ext) (sn ext) (ln ext))
              (registry w)) as [nid t2] eqn:H1.
  destruct (Z.eq_dec (alias ext) 0) as [Ha|Ha].
  - rewrite Ha. cbn [Z.eqb]. unfold kind_of_type.
    destruct (Z.eq_dec (type ext) V_ASN1_INTEGER) as [Hi|Hi].
    { rewrite Hi, Z.eqb_refl.
      destruct (toolkit (Call_X509V3_EXT_add
                           (set_ext_nid integer_method nid)) t2)
        as [r t3] eqn:H2.
      rewrite (ext_init_body_add ext w integer_method nid r t2 t3 Ha
                 (or_introl (conj Hi eq_refl)) H1 H2).
      change {| ext_nid := nid; it := Some ASN1_INTEGER_it;
                i2s := Some i2s_ASN1_INTEGER;
                s2i := Some s2i_ASN1_INTEGER |}
        with (set_ext_nid integer_method nid).
      rewrite H2. destruct (r =? 0); reflexivity. }
    apply Z.eqb_neq in Hi. rewrite Hi. apply Z.eqb_neq in Hi.
    destruct (Z.eq_dec (type ext) V_ASN1_OCTET_STRING) as [Hs|Hs].
    { rewrite Hs, Z.eqb_refl.
      destruct (toolkit (Call_X509V3_EXT_add
                           (set_ext_nid octet_string_method nid)) t2)
        as [r t3] eqn:H2.
      rewrite (ext_init_body_add ext w octet_string_method nid r t2 t3 Ha
                 (or_intror (conj Hs eq_refl)) H1 H2).
      change {| ext_nid := nid; it := Some ASN1_OCTET_STRING_it;
                i2s := Some i2s_ASN1_OCTET_STRING;
                s2i := Some s2i_ASN1_OCTET_STRING |}
        with (set_ext_nid octet_string_method nid).
      rewrite H2. destruct (r =? 0); reflexivity. }
    rewrite (ext_init_body_skip ext w nid t2 Ha Hi Hs H1).
    apply Z.eqb_neq in Hs. rewrite Hs. reflexivity.
  - destruct (toolkit (Call_X509V3_EXT_add_alias nid (alias ext)) t2)
      as [r t3] eqn:H2.
    rewrite (ext_init_body_alias ext w nid r t2 t3 Ha H1 H2).
    apply Z.eqb_neq in Ha. rewrite Ha. reflexivity.
Qed.

(** With an entry without [oid], [ext_init] is [initialize] on the entries
    before it. *)
Lemma ext_init_loop_initialize (pre post : list ext_t) (s : ext_t)
      (w : world T) :
  Forall (fun e => oid e <> None) pre ->
  oid s = None ->
  ext_init_loop toolkit (pre ++ s :: post) w
  = (let (r, w') := initialize toolkit pre w in (Some r, w')).
Proof.
  intros Hpre Hs. revert w. induction Hpre as [|d pre Hd Hpre IH]; intros w.
  - cbn. rewrite Hs. reflexivity.
  - cbn [app initialize].
    destruct (oid d) as [o|] eqn:Ho; [|congruence].
    cbn [ext_init_loop]. rewrite Ho. unfold bind.
    rewrite ext_init_body_register_definition.
    destruct (register_definition toolkit d w) as [[|] w'].
    + apply IH.
    + reflexivity.
Qed.

(** What the spec's step does: it interns the [oid] of its definition and
    no other, and it aborts only for a definition without alias of a
    supported kind, right after an [X509V3_EXT_add] answered with 0. *)
Lemma register_definition_trace (d : ext_t) (w w' : world T) (ok : bool) :
  register_definition toolkit d w = (ok, w') ->
  exists new,
    calls w' = calls w ++ new
    /\ interned new = [oid d]
    /\ (ok = false ->
        alias d = 0
        /\ kind_of_type (type d) <> Unsupported
        /\ exists before m t,
            new = before ++ [Call_X509V3_EXT_add m]
            /\ toolkit (Call_X509V3_EXT_add m) t = (0, registry w')).
Proof.
  unfold register_definition.
  destruct (toolkit (Call_OBJ_create (oid d) (sn d) (ln d)) (registry w))
    as [nid t1].
  assert (Hattach : forall m,
             alias d = 0 -> kind_of_type (type d) <> Unsupported ->
             (let (r, t2) := toolkit (Call_X509V3_EXT_add m) t1 in
              if r =? 0
              then (false,
                    {| registry := t2;
                       calls := calls w ++
                                [Call_OBJ_create (oid d) (sn d) (ln d);
                                 Call_X509V3_EXT_add m];
                       diag := diag w ++ [stdout] |})
              else (true,
                    {| registry := t2;
                       calls := calls w ++
                                [Call_OBJ_create (oid d) (sn d) (ln d);
                                 Call_X509V3_EXT_add m];
                       diag := diag w |})) = (ok, w') ->
             exists new,
               calls w' = calls w ++ new
               /\ interned new = [oid d]
               /\ (ok = false ->
                   alias d = 0
                   /\ kind_of_type (type d) <> Unsupported
                   /\ exists before m0 t,
                       new = before ++ [Call_X509V3_EXT_add m0]
                       /\ toolkit (Call_X509V3_EXT_add m0) t
                          = (0, registry w'))).
  { intros m Ha Hk.
    destruct (toolkit (Call_X509V3_EXT_add m) t1) as [r t2] eqn:H2.
    destruct (r =? 0) eqn:Hr; intros [= <- <-]; cbn [calls registry];
      eexists; (split; [reflexivity|]); (split; [reflexivity|]).
    - intros _. split; [exact Ha|]. split; [exact Hk|].
      exists [Call_OBJ_create (oid d) (sn d) (ln d)], m, t1.
      split; [reflexivity|]. apply Z.eqb_eq in Hr. subst r. exact H2.
    - discriminate. }
  destruct (alias d =? 0) eqn:Ha; [apply Z.eqb_eq in Ha|].
  - destruct (kind_of_type (type d)) eqn:Hk.
    + apply Hattach; [exact Ha | discriminate].
    + apply Hattach; [exact Ha | discriminate].
    + intros [= <- <-]. cbn [calls registry]. eexists.
      split; [reflexivity|]. split; [reflexivity | discriminate].
  - destruct (toolkit _ t1) as [r t2]. intros [= <- <-].
    cbn [calls registry]. eexists.
    split; [reflexivity|]. split; [reflexivity | discriminate].
Qed.

(** What [initialize] does: it returns 0 after interning every definition,
    or 1 after interning the definitions up to the one that aborted. *)
Lemma initialize_trace (defs : list ext_t) (w w' : world T) (r : Z) :
  initialize toolkit defs w = (r, w') ->
  exists new,
    calls w' = calls w ++ new
    /\ ((r = 0 /\ interned new = map oid defs)
        \/ (r = 1
            /\ exists done d rest before m t,
                defs = done ++ d :: rest
                /\ interned new = map oid (done ++ [d])
                /\ alias d = 0
                /\ kind_of_type (type d) <> Unsupported
                /\ new = before ++ [Call_X509V3_EXT_add m]
                /\ toolkit (Call_X509V3_EXT_add m) t = (0, registry w'))).
Proof.
  revert w. induction defs as [|d defs IH]; intros w.
  - cbn. intros [= <- <-]. exists []. rewrite app_nil_r.
    split; [reflexivity|]. left. split; reflexivity.
  - cbn [initialize].
    destruct (register_definition toolkit d w) as [ok w0] eqn:Hd.
    destruct (register_definition_trace _ _ _ _ Hd) as (n0 & Hc0 & Hi0 & Hf0).
    destruct ok.
    + intros Hrest. destruct (IH _ Hrest) as (n1 & Hc1 & Hcase).
      exists (n0 ++ n1). rewrite Hc1, Hc0, <- app_assoc.
      split; [reflexivity|].
      unfold interned in *. rewrite flat_map_app, Hi0.
      destruct Hcase as [[-> Hi1] | (-> & done & d1 & rest & before & m & t
                                     & Hdefs & Hi1 & Ha & Hk & Hn & Ht)].
      * left. rewrite Hi1. split; reflexivity.
      * right. split; [reflexivity|].
        exists (d :: done), d1, rest, (n0 ++ before), m, t.
        rewrite Hdefs, Hi1, Hn, <- app_assoc.
        repeat split; try assumption; reflexivity.
    + intros [= <- <-].
      destruct (Hf0 eq_refl) as (Ha & Hk & before & m & t & Hn & Ht).
      exists n0. split; [exact Hc0|]. right. split; [reflexivity|].
      exists [], d, defs, before, m, t.
      repeat split; try assumption; reflexivity.
Qed.

Lemma ext_init_loop_step (ext : ext_t) (rest : list ext_t) (w : world T)
      (o : string) :
  oid ext = Some o ->
  ext_init_loop toolkit (ext :: rest) w
  = (let (c, w') := ext_init_body toolkit ext w in
     match c with
     | Next => ext_init_loop toolkit rest w'
     | Return r => (Some r, w')
     end).
Proof.
  intros Ho. cbn [ext_init_loop].
  destruct (oid ext); [|discriminate]. unfold bind.
  destruct (ext_init_body toolkit ext w) as [[|r] w']; reflexivity.
Qed.

End Registry.

Section Initialization.

Variable T : Type.
Variable toolkit : call -> T -> Z * T.

(** C2. When [X509V3_EXT_add] fails (returns 0) for a definition,
    [ext_init] returns 1 at once, after printing the error queue on stdout.
    The definitions after the failing one play no part: the result is the
    same for every [post].  The world is the one the toolkit left after the
    failing call: the calls made for the definitions before it (those of
    [w1]) stay as they were and are followed by the two calls made for the
    failing definition and by nothing that would undo them. *)
Theorem ext_init_registration_failure
        (pre post : list ext_t) (ext : ext_t) (w w1 : world T) (o : string)
        (m : X509V3_EXT_METHOD) (nid : Z) (t2 t3 : T) :
  Forall (fun e => oid e <> None) pre ->
  ext_init toolkit (pre ++ [ext_end]) w = (Some 0, w1) ->
  oid ext = Some o ->
  alias ext = 0 ->
  (type ext = V_ASN1_INTEGER /\ m = integer_method)
  \/ (type ext = V_ASN1_OCTET_STRING /\ m = octet_string_method) ->
  toolkit (Call_OBJ_create (oid ext) (sn ext) (ln ext)) (registry w1)
  = (nid, t2) ->
  toolkit (Call_X509V3_EXT_add (set_ext_nid m nid)) t2 = (0, t3) ->
  ext_init toolkit (pre ++ ext :: post) w
  = (Some 1,
     {| registry := t3;
        calls := calls w1 ++ [Call_OBJ_create (oid ext) (sn ext) (ln ext);
                              Call_X509V3_EXT_add (set_ext_nid m nid)];
        diag := diag w1 ++ [stdout] |}).
Proof.
  intros Hpre Hw1 Ho Ha Hty H1 H2. unfold ext_init in *.
  rewrite (ext_init_loop_prefix _ _ pre (ext :: post) w w1 Hpre Hw1).
  rewrite (ext_init_loop_step _ _ ext post w1 o Ho).
  rewrite (ext_init_body_add _ _ ext w1 m nid 0 t2 t3 Ha Hty H1 H2).
  reflexivity.
Qed.

(** C3, amended.  The sentinel of ext.c is an entry whose [oid] is absent,
    a NULL pointer.  On a list whose first such entry is [s], whatever
    follows [s], [ext_init] does what the spec's [initialize] does on the
    entries before [s] and touches nothing at or after [s]: it returns 0
    after interning every entry before [s], in order, or it returns 1
    after interning the entries up to the first one whose methods the
    toolkit refused to attach. *)
Theorem ext_init_stops_at_null_oid
        (pre post : list ext_t) (s : ext_t) (w : world T) :
  Forall (fun e => oid e <> None) pre ->
  oid s = None ->
  exists r w' new,
    ext_init toolkit (pre ++ s :: post) w = (Some r, w')
    /\ initialize toolkit pre w = (r, w')
    /\ calls w' = calls w ++ new
    /\ ((r = 0 /\ interned new = map oid pre)
        \/ (r = 1
            /\ exists done d rest before m t,
                pre = done ++ d :: rest
                /\ interned new = map oid (done ++ [d])
                /\ alias d = 0
                /\ kind_of_type (type d) <> Unsupported
                /\ new = before ++ [Call_X509V3_EXT_add m]
                /\ toolkit (Call_X509V3_EXT_add m) t = (0, registry w'))).
Proof.
  intros Hpre Hs. unfold ext_init.
  rewrite (ext_init_loop_initialize _ _ pre post s w Hpre Hs).
  destruct (initialize toolkit pre w) as [r w'] eqn:Hinit.
  destruct (initialize_trace _ _ _ _ _ _ Hinit) as (new & Hc & Hcase).
  exists r, w', new. repeat split; assumption.
Qed.

(** C6. For a definition without alias whose type is neither
    [V_ASN1_INTEGER] nor [V_ASN1_OCTET_STRING], [ext_init] calls
    [OBJ_create] and nothing else, and goes on with the rest of the list
    from there. *)
Theorem ext_init_unsupported_type_skipped
        (pre rest : list ext_t) (ext : ext_t) (w w1 : world T) (o : string)
        (nid : Z) (t2 : T) :
  Forall (fun e => oid e <> None) pre ->
  ext_init toolkit (pre ++ [ext_end]) w = (Some 0, w1) ->
  oid ext = Some o ->
  alias ext = 0 ->
  type ext <> V_ASN1_INTEGER ->
  type ext <> V_ASN1_OCTET_STRING ->
  toolkit (Call_OBJ_create (oid ext) (sn ext) (ln ext)) (registry w1)
  = (nid, t2) ->
  ext_init toolkit (pre ++ ext :: rest) w
  = ext_init_loop toolkit rest
      {| registry := t2;
         calls := calls w1 ++ [Call_OBJ_create (oid ext) (sn ext) (ln ext)];
         diag := diag w1 |}.
Proof.
  intros Hpre Hw1 Ho Ha Hi Hs H1. unfold ext_init in *.
  rewrite (ext_init_loop_prefix _ _ pre (ext :: rest) w w1 Hpre Hw1).
  rewrite (ext_init_loop_step _ _ ext rest w1 o Ho).
  rewrite (ext_init_body_skip _ _ ext w1 nid t2 Ha Hi Hs H1).
  reflexivity.
Qed.

(** C10. For a definition with an alias, the value [r] returned by
    [X509V3_EXT_add_alias] is not looked at: whatever it is (0 for a
    failure), [ext_init] goes on with the rest of the list, and returns 0
    when the terminating entry follows. *)
Theorem ext_init_alias_result_ignored
        (pre rest : list ext_t) (ext : ext_t) (w w1 : world T) (o : string)
        (nid r : Z) (t2 t3 : T) :
  Forall (fun e => oid e <> None) pre ->
  ext_init toolkit (pre ++ [ext_end]) w = (Some 0, w1) ->
  oid ext = Some o ->
  alias ext <> 0 ->
  toolkit (Call_OBJ_create (oid ext) (sn ext) (ln ext)) (registry w1)
  = (nid, t2) ->
  toolkit (Call_X509V3_EXT_add_alias nid (alias ext)) t2 = (r, t3) ->
  let w3 :=
    {| registry := t3;
       calls := calls w1 ++ [Call_OBJ_create (oid ext) (sn ext) (ln ext);
                             Call_X509V3_EXT_add_alias nid (alias ext)];
       diag := diag w1 |} in
  ext_init toolkit (pre ++ ext :: rest) w = ext_init_loop toolkit rest w3
  /\ ext_init toolkit (pre ++ [ext; ext_end]) w = (Some 0, w3).
Proof.
  intros Hpre Hw1 Ho Ha H1 H2 w3. unfold ext_init in *.
  assert (Hgo : forall rest,
             ext_init_loop toolkit (pre ++ ext :: rest) w
             = ext_init_loop toolkit rest w3).
  { intros rest0.
    rewrite (ext_init_loop_prefix _ _ pre (ext :: rest0) w w1 Hpre Hw1).
    rewrite (ext_init_loop_step _ _ ext rest0 w1 o Ho).
    rewrite (ext_init_body_alias _ _ ext w1 nid r t2 t3 Ha H1 H2).
    reflexivity. }
  split; [apply Hgo|]. rewrite Hgo. reflexivity.
Qed.

End Initialization.

(** ** The encoders *)

Lemma ASN1_OCTET_STRING_set_all (data : list byte) :
  ASN1_OCTET_STRING_set data (Z.of_nat (length data)) = data.
Proof.
  unfold ASN1_OCTET_STRING_set.
  destruct (Z.of_nat (length data) <? 0) eqn:E; [apply Z.ltb_lt in E; lia|].
  rewrite Nat2Z.id. apply firstn_all.
Qed.

Lemma der_integer_minimal_zero (b : byte) (rest : list byte) :
  der_integer_minimal ("000"%byte :: b :: rest) = true ->
  128 <= Z_of_byte b.
Proof.
  cbn [der_integer_minimal].
  change (Z_of_byte "000"%byte =? 0) with true.
  change (Z_of_byte "000"%byte =? 255) with false.
  destruct (Z_of_byte b <? 128) eqn:E; cbn; [discriminate|].
  intros _. apply Z.ltb_ge in E. exact E.
Qed.

Section Encoders.

Variable T : Type.
Variable OBJ_nid2obj : Z -> T -> option ASN1_OBJECT.
Variable EVP_PKEY : Type.
Variable i2d_PUBKEY : EVP_PKEY -> option (list byte).

Lemma ext_new_known (nid crit : Z) (data : list byte) (len : Z) (w : world T)
      (obj : ASN1_OBJECT) :
  OBJ_nid2obj nid (registry w) = Some obj ->
  ext_new OBJ_nid2obj nid crit data len w
  = (Some {| object := obj; critical := negb (crit =? 0);
             value := ASN1_OCTET_STRING_set data len |}, w).
Proof.
  intros Hobj. unfold ext_new, bind, X509_EXTENSION_create_by_NID, ret.
  rewrite Hobj. reflexivity.
Qed.

Lemma ext_new_result (nid crit : Z) (data : list byte) (len : Z)
      (w w' : world T) (ex : X509_EXTENSION) :
  ext_new OBJ_nid2obj nid crit data len w = (Some ex, w') ->
  value ex = ASN1_OCTET_STRING_set data len.
Proof.
  unfold ext_new, bind, X509_EXTENSION_create_by_NID, ret.
  destruct (OBJ_nid2obj nid (registry w)); intros [= <- _]; reflexivity.
Qed.

Lemma ext_new_frame (nid crit : Z) (data : list byte) (len : Z)
      (w : world T) :
  snd (ext_new OBJ_nid2obj nid crit data len w) = w.
Proof.
  unfold ext_new, bind, X509_EXTENSION_create_by_NID, ret.
  destruct (OBJ_nid2obj nid (registry w)); reflexivity.
Qed.

(** *** Hashes *)

Lemma ext_new_hash_unfold (nid crit : Z) (d : list byte) (w : world T) :
  Z.of_nat (length d) <= INT_MAX - 7 ->
  ext_new_hash OBJ_nid2obj nid crit d (Z.of_nat (length d)) w
  = ext_new OBJ_nid2obj nid crit (snd (i2d_ASN1_OCTET_STRING d))
      (Z.of_nat (length (snd (i2d_ASN1_OCTET_STRING d)))) w.
Proof.
  intros Hd. unfold ext_new_hash, bind, ret.
  rewrite to_int_id by (unfold INT_MIN, INT_MAX in *; lia).
  rewrite ASN1_OCTET_STRING_set_all.
  rewrite i2d_ASN1_OCTET_STRING_size by exact Hd.
  destruct (ext_new _ _ _ _ _ w); reflexivity.
Qed.

(** C4, amended.  For a digest [d] whose length leaves room for the DER
    header in the toolkit's [int] sizes (at most [INT_MAX - 7] bytes) and an
    identifier known to the toolkit, [ext_new_hash] returns an extension
    whose value, decoded as a DER octet string, is [d]; and a digest within
    the same bound whose extension has the same value is [d] itself. *)
Theorem ext_new_hash_round_trip
        (nid crit : Z) (d : list byte) (w : world T) (obj : ASN1_OBJECT) :
  OBJ_nid2obj nid (registry w) = Some obj ->
  Z.of_nat (length d) <= INT_MAX - 7 ->
  exists ex,
    ext_new_hash OBJ_nid2obj nid crit d (Z.of_nat (length d)) w = (Some ex, w)
    /\ d2i_ASN1_OCTET_STRING (value ex) = Some d
    /\ forall nid' crit' d' w' w'' ex',
        Z.of_nat (length d') <= INT_MAX - 7 ->
        ext_new_hash OBJ_nid2obj nid' crit' d' (Z.of_nat (length d')) w'
        = (Some ex', w'') ->
        value ex' = value ex ->
        d' = d.
Proof.
  intros Hobj Hd.
  assert (Hdec : forall a, Z.of_nat (length a) <= INT_MAX - 7 ->
                   d2i_ASN1_OCTET_STRING (snd (i2d_ASN1_OCTET_STRING a))
                   = Some a).
  { intros a Ha. apply d2i_i2d_ASN1_OCTET_STRING. exact Ha. }
  eexists. split; [|split].
  - rewrite ext_new_hash_unfold by exact Hd.
    rewrite (ext_new_known _ _ _ _ _ obj Hobj).
    rewrite ASN1_OCTET_STRING_set_all. reflexivity.
  - cbn [value]. apply Hdec. exact Hd.
  - intros nid' crit' d' w' w'' ex' Hd' Hex' Hval.
    rewrite ext_new_hash_unfold in Hex' by exact Hd'.
    apply ext_new_result in Hex'.
    rewrite ASN1_OCTET_STRING_set_all in Hex'.
    cbn [value] in Hval.
    pose proof (Hdec d' Hd') as H1. pose proof (Hdec d Hd) as H2.
    rewrite <- Hex', Hval, H2 in H1. congruence.
Qed.

(** *** Counters *)

Lemma ext_new_nvcounter_known (nid crit v : Z) (w : world T)
      (obj : ASN1_OBJECT) :
  OBJ_nid2obj nid (registry w) = Some obj ->
  ext_new_nvcounter OBJ_nid2obj nid crit v w
  = (Some {| object := obj; critical := negb (crit =? 0);
             value := snd (i2d_ASN1_INTEGER v) |}, w).
Proof.
  intros Hobj. unfold ext_new_nvcounter, bind, ret, ASN1_INTEGER_set.
  rewrite i2d_ASN1_INTEGER_size.
  rewrite (ext_new_known _ _ _ _ _ obj Hobj).
  rewrite ASN1_OCTET_STRING_set_all. reflexivity.
Qed.

(** C5. For a counter [v] between 0 and [INT_MAX] and an identifier known
    to the toolkit, [ext_new_nvcounter] returns an extension whose value,
    decoded as a DER integer, is [v].  The content octets [body] are the
    shortest with that value, and a leading zero octet is there only before
    an octet whose high bit is set. *)
Theorem ext_new_nvcounter_round_trip
        (nid crit v : Z) (w : world T) (obj : ASN1_OBJECT) :
  OBJ_nid2obj nid (registry w) = Some obj ->
  0 <= v <= INT_MAX ->
  exists ex body,
    ext_new_nvcounter OBJ_nid2obj nid crit v w = (Some ex, w)
    /\ d2i_ASN1_INTEGER (value ex) = Some v
    /\ d2i_ASN1_INTEGER_contents (value ex) = Some body
    /\ (forall c, c <> [] -> c2i_ASN1_INTEGER c = v ->
                  (length body <= length c)%nat)
    /\ (forall b rest, body = "000"%byte :: b :: rest -> 128 <= Z_of_byte b).
Proof.
  intros Hobj Hv. unfold INT_MAX in Hv.
  destruct (d2i_i2d_ASN1_INTEGER v ltac:(lia)) as [Hc Hval].
  eexists. exists (integer_octets 8 v).
  split; [apply (ext_new_nvcounter_known _ _ _ _ obj Hobj)|].
  cbn [value]. unfold d2i_ASN1_INTEGER. rewrite Hc. cbn [option_map].
  rewrite Hval. repeat split.
  - intros c Hne <-. apply integer_octets_shortest. exact Hne.
  - intros b rest Hbody. apply (der_integer_minimal_zero b rest).
    rewrite <- Hbody. apply (der_integer_minimal_octets 7).
    change (256 ^ Z.of_nat 7) with 72057594037927936. lia.
Qed.

(** C8. For a negative [value] of type [int] and an identifier known to
    the toolkit, [ext_new_nvcounter] does not fail: it returns an extension
    whose value a strict DER decoder accepts as the integer [value]. *)
Theorem ext_new_nvcounter_negative
        (nid crit v : Z) (w : world T) (obj : ASN1_OBJECT) :
  OBJ_nid2obj nid (registry w) = Some obj ->
  INT_MIN <= v < 0 ->
  exists ex,
    ext_new_nvcounter OBJ_nid2obj nid crit v w = (Some ex, w)
    /\ d2i_ASN1_INTEGER (value ex) = Some v.
Proof.
  intros Hobj Hv. unfold INT_MIN in Hv.
  destruct (d2i_i2d_ASN1_INTEGER v ltac:(lia)) as [Hc Hval].
  eexists. split; [apply (ext_new_nvcounter_known _ _ _ _ obj Hobj)|].
  cbn [value]. unfold d2i_ASN1_INTEGER. rewrite Hc. cbn [option_map].
  rewrite Hval. reflexivity.
Qed.

(** *** Keys *)

Lemma ext_new_key_known (nid crit : Z) (k : EVP_PKEY) (der : list byte)
      (w : world T) (obj : ASN1_OBJECT) :
  OBJ_nid2obj nid (registry w) = Some obj ->
  i2d_PUBKEY k = Some der ->
  der <> [] ->
  ext_new_key OBJ_nid2obj i2d_PUBKEY nid crit k w
  = (Some {| object := obj; critical := negb (crit =? 0);
             value := firstn 4096 der |}, w).
Proof.
  intros Hobj Hk Hne. unfold ext_new_key, i2d_PUBKEY_bio. rewrite Hk.
  destruct der as [|b der]; [congruence|].
  destruct (Z.of_nat (length (b :: der)) <=? 0) eqn:E;
    [apply Z.leb_le in E; cbn [length] in E; lia|].
  change (1 <=? 0) with false. cbv iota.
  cbn [app]. unfold BIO_read, bind, ret.
  rewrite (ext_new_known _ _ _ _ _ obj Hobj).
  rewrite ASN1_OCTET_STRING_set_all. reflexivity.
Qed.

(** A key whose encoding fits the buffer of 4096 bytes is encoded in
    full. *)
Lemma ext_new_key_fits (nid crit : Z) (k : EVP_PKEY) (der : list byte)
      (w : world T) (obj : ASN1_OBJECT) :
  OBJ_nid2obj nid (registry w) = Some obj ->
  i2d_PUBKEY k = Some der ->
  (1 <= length der <= 4096)%nat ->
  ext_new_key OBJ_nid2obj i2d_PUBKEY nid crit k w
  = (Some {| object := obj; critical := negb (crit =? 0); value := der |}, w).
Proof.
  intros Hobj Hk Hlen.
  rewrite (ext_new_key_known _ _ _ der _ obj Hobj Hk).
  - rewrite firstn_all2 by lia. reflexivity.
  - destruct der; [cbn in Hlen; lia | discriminate].
Qed.

(** C7. When the toolkit cannot write the encoding of the key
    ([i2d_PUBKEY_bio] returns 0), [ext_new_key] prints the error queue on
    stderr and returns NULL: no extension is built. *)
Theorem ext_new_key_serialization_failure
        (nid crit : Z) (k : EVP_PKEY) (w : world T) :
  fst (i2d_PUBKEY_bio i2d_PUBKEY [] k) <= 0 ->
  ext_new_key OBJ_nid2obj i2d_PUBKEY nid crit k w
  = (None,
     {| registry := registry w; calls := calls w;
        diag := diag w ++ [stderr] |}).
Proof.
  unfold ext_new_key.
  destruct (i2d_PUBKEY_bio i2d_PUBKEY [] k) as [r mem]. cbn [fst].
  intros Hr. apply Z.leb_le in Hr. rewrite Hr. reflexivity.
Qed.

(** C9. The three encoders leave the toolkit's tables as they found them
    and make none of the calls that change them. *)
Theorem encoders_leave_registry
        (nid crit : Z) (buf : list byte) (len v : Z) (k : EVP_PKEY)
        (w : world T) :
  (registry (snd (ext_new_hash OBJ_nid2obj nid crit buf len w)) = registry w
   /\ calls (snd (ext_new_hash OBJ_nid2obj nid crit buf len w)) = calls w)
  /\ (registry (snd (ext_new_nvcounter OBJ_nid2obj nid crit v w)) = registry w
      /\ calls (snd (ext_new_nvcounter OBJ_nid2obj nid crit v w)) = calls w)
  /\ (registry (snd (ext_new_key OBJ_nid2obj i2d_PUBKEY nid crit k w))
      = registry w
      /\ calls (snd (ext_new_key OBJ_nid2obj i2d_PUBKEY nid crit k w))
         = calls w).
Proof.
  assert (Hbind : forall data n,
             snd ((ex <- ext_new OBJ_nid2obj nid crit data n ;; ret ex) w)
             = w).
  { intros data n. unfold bind, ret.
    pose proof (ext_new_frame nid crit data n w) as Hf.
    destruct (ext_new OBJ_nid2obj nid crit data n w). exact Hf. }
  split; [|split].
  - unfold ext_new_hash. rewrite Hbind. split; reflexivity.
  - unfold ext_new_nvcounter. rewrite Hbind. split; reflexivity.
  - unfold ext_new_key.
    destruct (i2d_PUBKEY_bio i2d_PUBKEY [] k) as [r mem].
    destruct (r <=? 0).
    + split; reflexivity.
    + destruct (BIO_read mem 4096) as [[sz p] mem'].
      rewrite Hbind. split; reflexivity.
Qed.

End Encoders.

(** * The theorems on the sample toolkit *)

Lemma ext_init_registration_failure_witness :
  exists w',
    ext_init sample_toolkit [tbb_hash; tbb_counter; tbb_other; ext_end]
      (sample_world 1) = (Some 1, w').
Proof.
  eexists.
  eapply (ext_init_registration_failure tables sample_toolkit
            [tbb_hash] [tbb_other; ext_end] tbb_counter (sample_world 1)
            _ _ integer_method).
  - repeat constructor; discriminate.
  - reflexivity.
  - reflexivity.
  - reflexivity.
  - left. split; reflexivity.
  - reflexivity.
  - reflexivity.
Defined.

Lemma ext_init_stops_at_null_oid_witness :
  exists r w' new,
    ext_init sample_toolkit ([tbb_hash; tbb_counter] ++ ext_end :: [tbb_other])
      (sample_world 5) = (Some r, w')
    /\ initialize sample_toolkit [tbb_hash; tbb_counter] (sample_world 5)
       = (r, w')
    /\ calls w' = calls (sample_world 5) ++ new
    /\ ((r = 0 /\ interned new = map oid [tbb_hash; tbb_counter])
        \/ (r = 1
            /\ exists done d rest before m t,
                [tbb_hash; tbb_counter] = done ++ d :: rest
                /\ interned new = map oid (done ++ [d])
                /\ alias d = 0
                /\ kind_of_type (type d) <> Unsupported
                /\ new = before ++ [Call_X509V3_EXT_add m]
                /\ sample_toolkit (Call_X509V3_EXT_add m) t
                   = (0, registry w'))).
Proof.
  apply (ext_init_stops_at_null_oid tables sample_toolkit
           [tbb_hash; tbb_counter] [tbb_other] ext_end (sample_world 5)).
  - repeat constructor; discriminate.
  - reflexivity.
Defined.

Lemma ext_init_unsupported_type_skipped_witness :
  exists w2,
    ext_init sample_toolkit [tbb_hash; tbb_other; tbb_counter; ext_end]
      (sample_world 5)
    = ext_init_loop sample_toolkit [tbb_counter; ext_end] w2
    /\ length (methods (registry w2)) = 1%nat.
Proof.
  eexists. split.
  - eapply (ext_init_unsupported_type_skipped tables sample_toolkit
              [tbb_hash] [tbb_counter; ext_end] tbb_other (sample_world 5)).
    + repeat constructor; discriminate.
    + reflexivity.
    + reflexivity.
    + reflexivity.
    + discriminate.
    + discriminate.
    + reflexivity.
  - reflexivity.
Defined.

Lemma ext_init_alias_result_ignored_witness :
  fst (sample_toolkit (Call_X509V3_EXT_add_alias 1001 85)
         (registry (snd (OBJ_create sample_toolkit (oid tbb_alias)
                           (sn tbb_alias) (ln tbb_alias)
                           (snd (ext_init sample_toolkit [tbb_hash; ext_end]
                                   (sample_world 5))))))) = 0
  /\ fst (ext_init sample_toolkit [tbb_hash; tbb_alias; ext_end]
            (sample_world 5)) = Some 0.
Proof.
  split; [reflexivity|].
  refine (f_equal fst
            (proj2 (ext_init_alias_result_ignored tables sample_toolkit
                      [tbb_hash] [] tbb_alias (sample_world 5)
                      _ _ _ _ _ _ _ _ _ _ _ _))).
  - repeat constructor; discriminate.
  - reflexivity.
  - reflexivity.
  - discriminate.
  - reflexivity.
  - reflexivity.
Defined.

(** C3 as stated fails for an empty [oid]: [tbb_empty], whose [oid]
    points to an empty string, does not end the list.  [OBJ_create] is
    called for it, and the entry after it is interned and registered. *)
Lemma ext_init_empty_oid_goes_on :
  oid tbb_empty = Some ""%string
  /\ fst (ext_init sample_toolkit [tbb_empty; tbb_hash; ext_end]
            (sample_world 5)) = Some 0
  /\ interned (calls (snd (ext_init sample_toolkit
                             [tbb_empty; tbb_hash; ext_end]
                             (sample_world 5))))
     = [Some ""%string; Some "1.2.3.4"%string]
  /\ In (Call_X509V3_EXT_add (set_ext_nid octet_string_method 1001))
        (calls (snd (ext_init sample_toolkit [tbb_empty; tbb_hash; ext_end]
                       (sample_world 5)))).
Proof.
  split; [reflexivity|]. split; [reflexivity|]. split; [reflexivity|].
  vm_compute. right. right. right. left. reflexivity.
Qed.

Lemma ext_new_hash_round_trip_witness :
  exists ex,
    ext_new_hash sample_nid2obj 1000 1 sha256_digest
      (Z.of_nat (length sha256_digest)) tbb_world = (Some ex, tbb_world)
    /\ d2i_ASN1_OCTET_STRING (value ex) = Some sha256_digest.
Proof.
  destruct (ext_new_hash_round_trip tables sample_nid2obj 1000 1
              sha256_digest tbb_world
              (mkObject "1.2.3.4" (Some "tbbHash"%string)
                 (Some "TBB Hash"%string) 1000))
    as (ex & Hex & Hdec & _).
  - reflexivity.
  - vm_compute. discriminate.
  - exists ex. split; assumption.
Defined.

Lemma ext_new_nvcounter_round_trip_witness :
  exists ex,
    ext_new_nvcounter sample_nid2obj 1001 0 16777216 tbb_world
    = (Some ex, tbb_world)
    /\ d2i_ASN1_INTEGER (value ex) = Some 16777216.
Proof.
  destruct (ext_new_nvcounter_round_trip tables sample_nid2obj 1001 0
              16777216 tbb_world
              (mkObject "1.2.3.5" (Some "tbbCounter"%string)
                 (Some "TBB Counter"%string) 1001))
    as (ex & body & Hex & Hdec & _).
  - reflexivity.
  - vm_compute. split; discriminate.
  - exists ex. split; assumption.
Defined.

Lemma ext_new_nvcounter_negative_witness :
  exists ex,
    ext_new_nvcounter sample_nid2obj 1001 0 (-1) tbb_world
    = (Some ex, tbb_world)
    /\ d2i_ASN1_INTEGER (value ex) = Some (-1).
Proof.
  apply (ext_new_nvcounter_negative tables sample_nid2obj 1001 0 (-1)
           tbb_world
           (mkObject "1.2.3.5" (Some "tbbCounter"%string)
              (Some "TBB Counter"%string) 1001)).
  - reflexivity.
  - vm_compute. split; [discriminate | reflexivity].
Defined.

Lemma ext_new_key_serialization_failure_witness :
  fst (ext_new_key sample_nid2obj sample_i2d_PUBKEY 1000 1 None tbb_world)
  = None.
Proof.
  rewrite (ext_new_key_serialization_failure tables sample_nid2obj
             (option (list byte)) sample_i2d_PUBKEY 1000 1 None tbb_world).
  - reflexivity.
  - vm_compute. discriminate.
Defined.

(** C4 as stated fails beyond the [int] lengths of the toolkit: for a
    buffer of 2^32 zero bytes the length converted to [int] is 0, so the
    extension is that of the empty digest and decodes to the empty
    string. *)
Lemma ext_new_hash_length_wraps :
  wide_digest <> []
  /\ ext_new_hash sample_nid2obj 1000 1 wide_digest
       (Z.of_nat (length wide_digest)) tbb_world
     = ext_new_hash sample_nid2obj 1000 1 []
         (Z.of_nat (length (@nil byte))) tbb_world
  /\ exists ex,
      ext_new_hash sample_nid2obj 1000 1 wide_digest
        (Z.of_nat (length wide_digest)) tbb_world = (Some ex, tbb_world)
      /\ d2i_ASN1_OCTET_STRING (value ex) = Some [].
Proof.
  assert (Hlen : Z.of_nat (length wide_digest) = 4294967296).
  { unfold wide_digest. rewrite repeat_length, Z2Nat.id; lia. }
  split.
  { intros E. rewrite E in Hlen. discriminate Hlen. }
  rewrite Hlen. generalize wide_digest. intros d.
  assert (Hd : ext_new_hash sample_nid2obj 1000 1 d 4294967296 tbb_world
               = ext_new_hash sample_nid2obj 1000 1 []
                   (Z.of_nat (length (@nil byte))) tbb_world).
  { unfold ext_new_hash.
    change (to_int 4294967296) with 0.
    change (ASN1_OCTET_STRING_set d 0) with (@nil byte).
    reflexivity. }
  split; [exact Hd|].
  rewrite Hd. eexists. split; vm_compute; reflexivity.
Qed.

(** C1, the failing input: the encoding of [large_key] has 4097 bytes;
    [ext_new_key] does not fail, and the value of the extension is the
    first 4096 bytes of the encoding, without the last one. *)
Theorem ext_new_key_truncates_large_key :
  sample_i2d_PUBKEY large_key = Some (large_key_head ++ ["002"%byte])
  /\ length (large_key_head ++ ["002"%byte]) = 4097%nat
  /\ exists ex,
      ext_new_key sample_nid2obj sample_i2d_PUBKEY 1000 1 large_key tbb_world
      = (Some ex, tbb_world)
      /\ value ex = large_key_head
      /\ value ex <> large_key_head ++ ["002"%byte].
Proof.
  split; [reflexivity|]. split; [vm_compute; reflexivity|].
  eexists. split; [|split].
  - apply (ext_new_key_known tables sample_nid2obj (option (list byte))
             sample_i2d_PUBKEY 1000 1 large_key
             (large_key_head ++ ["002"%byte]) tbb_world
             (mkObject "1.2.3.4" (Some "tbbHash"%string)
                (Some "TBB Hash"%string) 1000)).
    + reflexivity.
    + reflexivity.
    + vm_compute. discriminate.
  - vm_compute. reflexivity.
  - cbn [value]. intros E. apply (f_equal (@length byte)) in E.
    vm_compute in E. discriminate E.
Qed.

(** * Further properties of [ext_init] *)

Section InitializationEffects.

Variable T : Type.
Variable toolkit : call -> T -> Z * T.

(** What one iteration does to the world: it appends calls, every method it
    hands to [X509V3_EXT_add] is one of the two built by the [switch], and
    it prints on stdout only when it returns 1, right after an
    [X509V3_EXT_add] that the toolkit answered with 0. *)
Lemma ext_init_body_effect (ext : ext_t) (w w' : world T) (c : ctl) :
  ext_init_body toolkit ext w = (c, w') ->
  exists new,
    calls w' = calls w ++ new
    /\ (forall m, In (Call_X509V3_EXT_add m) new ->
          exists nid, m = set_ext_nid integer_method nid
                      \/ m = set_ext_nid octet_string_method nid)
    /\ ((c = Next /\ diag w' = diag w)
        \/ (c = Return 1 /\ diag w' = diag w ++ [stdout]
            /\ exists pre m t,
                new = pre ++ [Call_X509V3_EXT_add m]
                /\ toolkit (Call_X509V3_EXT_add m) t = (0, registry w'))).
Proof.
  intros Hb.
  destruct (toolkit (Call_OBJ_create (oid ext) (sn ext) (ln ext))
              (registry w)) as [nid t2] eqn:H1.
  assert (Hadd : forall m0,
             (type ext = V_ASN1_INTEGER /\ m0 = integer_method)
             \/ (type ext = V_ASN1_OCTET_STRING
                 /\ m0 = octet_string_method) ->
             alias ext = 0 ->
             exists new,
               calls w' = calls w ++ new
               /\ (forall m, In (Call_X509V3_EXT_add m) new ->
                     exists nid0, m = set_ext_nid integer_method nid0
                                  \/ m = set_ext_nid octet_string_method
                                         nid0)
               /\ ((c = Next /\ diag w' = diag w)
                   \/ (c = Return 1 /\ diag w' = diag w ++ [stdout]
                       /\ exists pre m t,
                           new = pre ++ [Call_X509V3_EXT_add m]
                           /\ toolkit (Call_X509V3_EXT_add m) t
                              = (0, registry w')))).
  { intros m0 Hty Ha.
    destruct (toolkit (Call_X509V3_EXT_add (set_ext_nid m0 nid)) t2)
      as [r t3] eqn:H2.
    rewrite (ext_init_body_add _ _ ext w m0 nid r t2 t3 Ha Hty H1 H2) in Hb.
    injection Hb as <- <-. cbn [calls diag registry].
    eexists. split; [reflexivity|]. split.
    - intros m [H|[H|[]]]; [discriminate H|].
      injection H as <-. exists nid.
      destruct Hty as [[_ ->] | [_ ->]]; [left | right]; reflexivity.
    - destruct (r =? 0) eqn:Hr.
      + right. split; [reflexivity|]. split; [reflexivity|].
        exists [Call_OBJ_create (oid ext) (sn ext) (ln ext)],
          (set_ext_nid m0 nid), t2.
        split; [reflexivity|].
        apply Z.eqb_eq in Hr. subst r. exact H2.
      + left. split; reflexivity. }
  destruct (Z.eq_dec (alias ext) 0) as [Ha|Ha].
  - destruct (Z.eq_dec (type ext) V_ASN1_INTEGER) as [Hi|Hi];
      [apply (Hadd integer_method); [left; split; [exact Hi|] |exact Ha];
       reflexivity|].
    destruct (Z.eq_dec (type ext) V_ASN1_OCTET_STRING) as [Hs|Hs];
      [apply (Hadd octet_string_method);
       [right; split; [exact Hs|] |exact Ha]; reflexivity|].
    rewrite (ext_init_body_skip _ _ ext w nid t2 Ha Hi Hs H1) in Hb.
    injection Hb as <- <-. cbn [calls diag registry].
    eexists. split; [reflexivity|]. split.
    + intros m [H|[]]. discriminate H.
    + left. split; reflexivity.
  - destruct (toolkit (Call_X509V3_EXT_add_alias nid (alias ext)) t2)
      as [r t3] eqn:H2.
    rewrite (ext_init_body_alias _ _ ext w nid r t2 t3 Ha H1 H2) in Hb.
    injection Hb as <- <-. cbn [calls diag registry].
    eexists. split; [reflexivity|]. split.
    + intros m [H|[H|[]]]; discriminate H.
    + left. split; reflexivity.
Qed.

Lemma ext_init_loop_effect (defs : list ext_t) (w w' : world T)
      (r : option Z) :
  ext_init_loop toolkit defs w = (r, w') ->
  exists new,
    calls w' = calls w ++ new
    /\ (forall m, In (Call_X509V3_EXT_add m) new ->
          exists nid, m = set_ext_nid integer_method nid
                      \/ m = set_ext_nid octet_string_method nid)
    /\ (r = None \/ r = Some 0 \/ r = Some 1)
    /\ (r = Some 1 ->
        diag w' = diag w ++ [stdout]
        /\ exists pre m t,
            new = pre ++ [Call_X509V3_EXT_add m]
            /\ toolkit (Call_X509V3_EXT_add m) t = (0, registry w'))
    /\ (r <> Some 1 -> diag w' = diag w).
Proof.
  revert w. induction defs as [|ext rest IH]; intros w.
  - cbn. unfold ret. intros [= <- <-]. exists [].
    rewrite app_nil_r. split; [reflexivity|].
    split; [intros m []|]. split; [left; reflexivity|].
    split; [discriminate | reflexivity].
  - destruct (oid ext) as [o|] eqn:Ho.
    + rewrite (ext_init_loop_step _ _ ext rest w o Ho).
      destruct (ext_init_body toolkit ext w) as [c w0] eqn:Hb.
      destruct (ext_init_body_effect _ _ _ _ Hb)
        as (new0 & Hc0 & Hm0 & Hcase).
      destruct c as [|r0].
      * intros Hrest.
        destruct (IH _ Hrest) as (new1 & Hc1 & Hm1 & Hr & Hfail & Hok).
        destruct Hcase as [[_ Hd0] | [Habs _]]; [|discriminate Habs].
        exists (new0 ++ new1).
        rewrite Hc1, Hc0, <- app_assoc. split; [reflexivity|].
        split.
        { intros m Hin. apply in_app_or in Hin.
          destruct Hin as [Hin|Hin]; [apply Hm0 | apply Hm1]; exact Hin. }
        split; [exact Hr|]. split.
        { intros Hr1. destruct (Hfail Hr1) as (Hd & pre & m & t & Hn & Ht).
          rewrite Hd, Hd0. split; [reflexivity|].
          exists (new0 ++ pre), m, t. rewrite Hn, <- app_assoc.
          split; [reflexivity | exact Ht]. }
        { intros Hr1. rewrite (Hok Hr1). exact Hd0. }
      * intros [= <- <-].
        destruct Hcase as [[Habs _] | (Hret & Hd & Hlast)];
          [discriminate Habs|].
        injection Hret as ->.
        exists new0. split; [exact Hc0|]. split; [exact Hm0|].
        split; [right; right; reflexivity|].
        split; [intros _; split; [exact Hd | exact Hlast]|].
        intros Hne. congruence.
    + cbn [ext_init_loop]. rewrite Ho. unfold ret. intros [= <- <-].
      exists []. rewrite app_nil_r. split; [reflexivity|].
      split; [intros m []|]. split; [right; left; reflexivity|].
      split; [discriminate | reflexivity].
Qed.

(** X1. On a list that holds an entry with a NULL [oid], [ext_init] stays
    inside the array and returns 0 or 1. *)
Theorem ext_init_terminated_returns
        (tbb_ext : list ext_t) (w : world T) :
  Exists (fun e => oid e = None) tbb_ext ->
  fst (ext_init toolkit tbb_ext w) = Some 0
  \/ fst (ext_init toolkit tbb_ext w) = Some 1.
Proof.
  intros Hex. unfold ext_init.
  destruct (ext_init_loop toolkit tbb_ext w) as [r w'] eqn:Hrun.
  destruct (ext_init_loop_effect _ _ _ _ Hrun) as (_ & _ & _ & Hr & _).
  cbn [fst]. destruct Hr as [-> | Hr]; [|exact Hr]. exfalso.
  revert w w' Hrun.
  induction tbb_ext as [|ext rest IH]; intros w w' Hrun.
  - inversion Hex.
  - destruct (oid ext) as [o|] eqn:Ho.
    + rewrite (ext_init_loop_step _ _ ext rest w o Ho) in Hrun.
      destruct (ext_init_body toolkit ext w) as [[|r0] w0].
      * apply (IH ltac:(inversion Hex; [congruence | assumption]) w0 w' Hrun).
      * discriminate Hrun.
    + cbn [ext_init_loop] in Hrun. rewrite Ho in Hrun. discriminate Hrun.
Qed.

(** X2. On a list without an entry with a NULL [oid], [ext_init] never
    returns 0: it returns 1 after a failed registration, or else runs past
    the last entry of the array. *)
Theorem ext_init_unterminated
        (tbb_ext : list ext_t) (w : world T) :
  Forall (fun e => oid e <> None) tbb_ext ->
  fst (ext_init toolkit tbb_ext w) = None
  \/ fst (ext_init toolkit tbb_ext w) = Some 1.
Proof.
  intros Hall. unfold ext_init.
  destruct (ext_init_loop toolkit tbb_ext w) as [r w'] eqn:Hrun.
  destruct (ext_init_loop_effect _ _ _ _ Hrun) as (_ & _ & _ & Hr & _).
  cbn [fst]. destruct Hr as [-> | [-> | ->]];
    [left; reflexivity | | right; reflexivity].
  exfalso. revert w w' Hrun.
  induction Hall as [|ext rest Hext Hall IH]; intros w w' Hrun.
  - discriminate Hrun.
  - destruct (oid ext) as [o|] eqn:Ho; [|congruence].
    rewrite (ext_init_loop_step _ _ ext rest w o Ho) in Hrun.
    destruct (ext_init_body toolkit ext w) as [[|r0] w0] eqn:Hb.
    + apply (IH w0 w' Hrun).
    + apply ext_init_body_return in Hb. congruence.
Qed.

(** X3. A definition without alias of type [V_ASN1_INTEGER] or
    [V_ASN1_OCTET_STRING] is registered with the method of its type under
    the identifier that [OBJ_create] returned, whatever that identifier is
    (the result of [OBJ_create] is not checked); when [X509V3_EXT_add]
    returns anything but 0, [ext_init] goes on with the rest of the list
    and prints nothing. *)
Theorem ext_init_registers_supported
        (pre rest : list ext_t) (ext : ext_t) (w w1 : world T) (o : string)
        (m : X509V3_EXT_METHOD) (nid r : Z) (t2 t3 : T) :
  Forall (fun e => oid e <> None) pre ->
  ext_init toolkit (pre ++ [ext_end]) w = (Some 0, w1) ->
  oid ext = Some o ->
  alias ext = 0 ->
  (type ext = V_ASN1_INTEGER /\ m = integer_method)
  \/ (type ext = V_ASN1_OCTET_STRING /\ m = octet_string_method) ->
  toolkit (Call_OBJ_create (oid ext) (sn ext) (ln ext)) (registry w1)
  = (nid, t2) ->
  toolkit (Call_X509V3_EXT_add (set_ext_nid m nid)) t2 = (r, t3) ->
  r <> 0 ->
  ext_init toolkit (pre ++ ext :: rest) w
  = ext_init_loop toolkit rest
      {| registry := t3;
         calls := calls w1 ++ [Call_OBJ_create (oid ext) (sn ext) (ln ext);
                               Call_X509V3_EXT_add (set_ext_nid m nid)];
         diag := diag w1 |}.
Proof.
  intros Hpre Hw1 Ho Ha Hty H1 H2 Hr. unfold ext_init in *.
  rewrite (ext_init_loop_prefix _ _ pre (ext :: rest) w w1 Hpre Hw1).
  rewrite (ext_init_loop_step _ _ ext rest w1 o Ho).
  rewrite (ext_init_body_add _ _ ext w1 m nid r t2 t3 Ha Hty H1 H2).
  apply Z.eqb_neq in Hr. rewrite Hr. reflexivity.
Qed.

(** X4. [ext_init] returns 1 only right after an [X509V3_EXT_add] that the
    toolkit answered with 0: that call is the last one made, and the tables
    are those the toolkit left at that call. *)
Theorem ext_init_failure_last_call
        (tbb_ext : list ext_t) (w w' : world T) :
  ext_init toolkit tbb_ext w = (Some 1, w') ->
  exists before m t,
    calls w' = calls w ++ before ++ [Call_X509V3_EXT_add m]
    /\ toolkit (Call_X509V3_EXT_add m) t = (0, registry w').
Proof.
  unfold ext_init. intros Hrun.
  destruct (ext_init_loop_effect _ _ _ _ Hrun)
    as (new & Hc & _ & _ & Hfail & _).
  destruct (Hfail eq_refl) as (_ & pre & m & t & Hn & Ht).
  exists pre, m, t. rewrite Hc, Hn. split; [reflexivity | exact Ht].
Qed.

(** X5. [ext_init] prints the error queue on stdout once when it returns 1
    and prints nothing otherwise. *)
Theorem ext_init_prints_iff_failure
        (tbb_ext : list ext_t) (w w' : world T) (r : option Z) :
  ext_init toolkit tbb_ext w = (r, w') ->
  (r = Some 1 /\ diag w' = diag w ++ [stdout])
  \/ (r <> Some 1 /\ diag w' = diag w).
Proof.
  unfold ext_init. intros Hrun.
  destruct (ext_init_loop_effect _ _ _ _ Hrun)
    as (new & _ & _ & Hr & Hfail & Hok).
  destruct Hr as [-> | [-> | ->]].
  - right. split; [discriminate|]. apply Hok. discriminate.
  - right. split; [discriminate|]. apply Hok. discriminate.
  - left. split; [reflexivity|]. apply (Hfail eq_refl).
Qed.

(** X6. [ext_init] only appends to the calls made before it, and every
    method it hands to [X509V3_EXT_add] is the integer method or the octet
    string method, complete with its item and both conversion functions:
    no method with a NULL field is registered. *)
Theorem ext_init_methods_complete
        (tbb_ext : list ext_t) (w w' : world T) (r : option Z) :
  ext_init toolkit tbb_ext w = (r, w') ->
  exists new,
    calls w' = calls w ++ new
    /\ forall m, In (Call_X509V3_EXT_add m) new ->
         (it m = Some ASN1_INTEGER_it /\ i2s m = Some i2s_ASN1_INTEGER
          /\ s2i m = Some s2i_ASN1_INTEGER)
         \/ (it m = Some ASN1_OCTET_STRING_it
             /\ i2s m = Some i2s_ASN1_OCTET_STRING
             /\ s2i m = Some s2i_ASN1_OCTET_STRING).
Proof.
  unfold ext_init. intros Hrun.
  destruct (ext_init_loop_effect _ _ _ _ Hrun) as (new & Hc & Hm & _).
  exists new. split; [exact Hc|]. intros m Hin.
  destruct (Hm m Hin) as [nid [-> | ->]]; [left | right];
    repeat split; reflexivity.
Qed.

End InitializationEffects.

(** * Further properties of the encoders *)

Section EncoderEffects.

Variable T : Type.
Variable OBJ_nid2obj : Z -> T -> option ASN1_OBJECT.
Variable EVP_PKEY : Type.
Variable i2d_PUBKEY : EVP_PKEY -> option (list byte).

Lemma ext_new_returned (nid crit : Z) (data : list byte) (len : Z)
      (w : world T) :
  (ex <- ext_new OBJ_nid2obj nid crit data len ;; ret ex) w
  = ext_new OBJ_nid2obj nid crit data len w.
Proof.
  unfold bind, ret. destruct (ext_new OBJ_nid2obj nid crit data len w).
  reflexivity.
Qed.

Lemma ext_new_null_iff (nid crit : Z) (data : list byte) (len : Z)
      (w : world T) :
  fst (ext_new OBJ_nid2obj nid crit data len w) = None
  <-> OBJ_nid2obj nid (registry w) = None.
Proof.
  unfold ext_new, bind, X509_EXTENSION_create_by_NID, ret.
  destruct (OBJ_nid2obj nid (registry w)); cbn [fst];
    split; intros H; try reflexivity; discriminate H.
Qed.

Lemma ext_new_object (nid crit : Z) (data : list byte) (len : Z)
      (w w' : world T) (ex : X509_EXTENSION) :
  ext_new OBJ_nid2obj nid crit data len w = (Some ex, w') ->
  OBJ_nid2obj nid (registry w) = Some (object ex)
  /\ critical ex = negb (crit =? 0).
Proof.
  unfold ext_new, bind, X509_EXTENSION_create_by_NID, ret.
  destruct (OBJ_nid2obj nid (registry w)); intros [= <- _];
    split; reflexivity.
Qed.

Lemma ext_new_nvcounter_value (nid crit v : Z) (w w' : world T)
      (ex : X509_EXTENSION) :
  ext_new_nvcounter OBJ_nid2obj nid crit v w = (Some ex, w') ->
  value ex = snd (i2d_ASN1_INTEGER v).
Proof.
  unfold ext_new_nvcounter, ASN1_INTEGER_set. rewrite ext_new_returned.
  intros Hex. apply ext_new_result in Hex.
  rewrite i2d_ASN1_INTEGER_size, ASN1_OCTET_STRING_set_all in Hex.
  exact Hex.
Qed.

(** X8. [ext_new_hash] and [ext_new_nvcounter] return NULL exactly when the
    toolkit has no object for [nid], whatever the buffer, the length and
    the counter. *)
Theorem hash_and_counter_null_iff_unknown_nid
        (nid crit : Z) (buf : list byte) (len v : Z) (w : world T) :
  (fst (ext_new_hash OBJ_nid2obj nid crit buf len w) = None
   <-> OBJ_nid2obj nid (registry w) = None)
  /\ (fst (ext_new_nvcounter OBJ_nid2obj nid crit v w) = None
      <-> OBJ_nid2obj nid (registry w) = None).
Proof.
  unfold ext_new_hash, ext_new_nvcounter.
  rewrite !ext_new_returned. split; apply ext_new_null_iff.
Qed.

(** X9. [ext_new_key] returns NULL exactly when the key cannot be written
    to the BIO or the toolkit has no object for [nid].  Only the first case
    is reported: when the key was written, the world is left as it was, so
    that an unknown [nid] gives NULL without any diagnostic. *)
Theorem ext_new_key_null_iff
        (nid crit : Z) (k : EVP_PKEY) (w : world T) :
  (fst (ext_new_key OBJ_nid2obj i2d_PUBKEY nid crit k w) = None
   <-> fst (i2d_PUBKEY_bio i2d_PUBKEY [] k) <= 0
       \/ OBJ_nid2obj nid (registry w) = None)
  /\ (0 < fst (i2d_PUBKEY_bio i2d_PUBKEY [] k) ->
      snd (ext_new_key OBJ_nid2obj i2d_PUBKEY nid crit k w) = w).
Proof.
  unfold ext_new_key.
  destruct (i2d_PUBKEY_bio i2d_PUBKEY [] k) as [r mem]. cbn [fst].
  destruct (r <=? 0) eqn:Hr;
    [apply Z.leb_le in Hr | apply Z.leb_gt in Hr].
  - split; [|lia]. cbn. split; [intros _; left; exact Hr | reflexivity].
  - destruct (BIO_read mem 4096) as [[sz p] mem'].
    rewrite ext_new_returned. split.
    + rewrite ext_new_null_iff. split; [intros H; right; exact H|].
      intros [H|H]; [lia | exact H].
    + intros _. apply ext_new_frame.
Qed.

(** X10. An extension returned by one of the three encoders holds the
    object that the toolkit has for [nid], and is critical exactly when
    [crit] is not 0. *)
Theorem encoders_object_and_critical
        (nid crit : Z) (buf : list byte) (len v : Z) (k : EVP_PKEY)
        (w w' : world T) (ex : X509_EXTENSION) :
  ext_new_hash OBJ_nid2obj nid crit buf len w = (Some ex, w')
  \/ ext_new_nvcounter OBJ_nid2obj nid crit v w = (Some ex, w')
  \/ ext_new_key OBJ_nid2obj i2d_PUBKEY nid crit k w = (Some ex, w') ->
  OBJ_nid2obj nid (registry w) = Some (object ex)
  /\ critical ex = negb (crit =? 0).
Proof.
  unfold ext_new_hash, ext_new_nvcounter, ext_new_key.
  intros [H | [H | H]].
  - rewrite ext_new_returned in H. apply (ext_new_object _ _ _ _ _ _ _ H).
  - rewrite ext_new_returned in H. apply (ext_new_object _ _ _ _ _ _ _ H).
  - destruct (i2d_PUBKEY_bio i2d_PUBKEY [] k) as [r mem].
    destruct (r <=? 0); [discriminate H|].
    destruct (BIO_read mem 4096) as [[sz p] mem'].
    rewrite ext_new_returned in H. apply (ext_new_object _ _ _ _ _ _ _ H).
Qed.

(** X11. With a length [len] that does not exceed the buffer (nor
    [INT_MAX - 7]) [ext_new_hash] encodes the first [len] bytes of the
    buffer and nothing after them; with [len = 0] this is the empty octet
    string. *)
Theorem ext_new_hash_encodes_prefix
        (nid crit : Z) (buf : list byte) (len : Z) (w : world T)
        (obj : ASN1_OBJECT) :
  OBJ_nid2obj nid (registry w) = Some obj ->
  0 <= len <= Z.of_nat (length buf) ->
  len <= INT_MAX - 7 ->
  exists ex,
    ext_new_hash OBJ_nid2obj nid crit buf len w = (Some ex, w)
    /\ d2i_ASN1_OCTET_STRING (value ex) = Some (firstn (Z.to_nat len) buf).
Proof.
  intros Hobj Hlen Hmax.
  assert (Hd : Z.of_nat (length (firstn (Z.to_nat len) buf)) = len).
  { rewrite firstn_length_le by lia. lia. }
  assert (Hsame : ext_new_hash OBJ_nid2obj nid crit buf len w
                  = ext_new_hash OBJ_nid2obj nid crit
                      (firstn (Z.to_nat len) buf)
                      (Z.of_nat (length (firstn (Z.to_nat len) buf))) w).
  { assert (Hset : ASN1_OCTET_STRING_set buf len
                   = firstn (Z.to_nat len) buf).
    { unfold ASN1_OCTET_STRING_set.
      destruct (len <? 0) eqn:E; [apply Z.ltb_lt in E; lia|].
      reflexivity. }
    pose proof (ASN1_OCTET_STRING_set_all (firstn (Z.to_nat len) buf))
      as Hall.
    rewrite Hd in Hall.
    unfold ext_new_hash. rewrite Hd.
    rewrite to_int_id by (unfold INT_MIN, INT_MAX in *; lia).
    rewrite Hset, Hall. reflexivity. }
  rewrite Hsame, ext_new_hash_unfold by (rewrite Hd; exact Hmax).
  rewrite (ext_new_known _ _ _ _ _ _ _ obj Hobj).
  rewrite ASN1_OCTET_STRING_set_all.
  eexists. split; [reflexivity|]. cbn [value].
  apply d2i_i2d_ASN1_OCTET_STRING. rewrite Hd. exact Hmax.
Qed.

(** X12. Distinct counters of type [int] never get the same encoded
    value, whatever the identifiers and critical flags. *)
Theorem ext_new_nvcounter_injective
        (nid1 crit1 v1 nid2 crit2 v2 : Z) (w1 w1' w2 w2' : world T)
        (ex1 ex2 : X509_EXTENSION) :
  INT_MIN <= v1 <= INT_MAX ->
  INT_MIN <= v2 <= INT_MAX ->
  ext_new_nvcounter OBJ_nid2obj nid1 crit1 v1 w1 = (Some ex1, w1') ->
  ext_new_nvcounter OBJ_nid2obj nid2 crit2 v2 w2 = (Some ex2, w2') ->
  value ex1 = value ex2 ->
  v1 = v2.
Proof.
  unfold INT_MIN, INT_MAX. intros Hv1 Hv2 H1 H2 Hval.
  apply ext_new_nvcounter_value in H1, H2.
  destruct (d2i_i2d_ASN1_INTEGER v1 ltac:(lia)) as [Hc1 Hd1].
  destruct (d2i_i2d_ASN1_INTEGER v2 ltac:(lia)) as [Hc2 Hd2].
  assert (Hc : integer_octets 8 v1 = integer_octets 8 v2).
  { rewrite <- H1, Hval, H2, Hc2 in Hc1. congruence. }
  congruence.
Qed.

(** X13. The encoded value of a counter of type [int] has between 3 and 6
    bytes: the tag 0x02, one length byte that counts the bytes after it,
    and 1 to 4 content bytes. *)
Theorem ext_new_nvcounter_size
        (nid crit v : Z) (w w' : world T) (ex : X509_EXTENSION) :
  INT_MIN <= v <= INT_MAX ->
  ext_new_nvcounter OBJ_nid2obj nid crit v w = (Some ex, w') ->
  exists n body,
    value ex = "002"%byte :: n :: body
    /\ Z_of_byte n = Z.of_nat (length body)
    /\ (1 <= length body <= 4)%nat.
Proof.
  unfold INT_MIN, INT_MAX. intros Hv Hex.
  apply ext_new_nvcounter_value in Hex. rewrite Hex.
  unfold i2d_ASN1_INTEGER. cbn [snd].
  pose proof (integer_octets_within 3 8 v
                ltac:(change (256 ^ Z.of_nat 3) with 16777216; lia)) as Hle.
  pose proof (integer_octets_nonempty 7 v) as Hne.
  remember (integer_octets 8 v) as body eqn:Hbody.
  unfold asn1_put_length.
  destruct (Z.of_nat (length body) <=? 127) eqn:E;
    [|apply Z.leb_gt in E; lia].
  exists (byte_of_Z (Z.of_nat (length body))), body.
  split; [reflexivity|]. split.
  - rewrite Z_of_byte_of_Z. apply Z.mod_small. lia.
  - destruct body; [congruence | cbn [length] in *; lia].
Qed.

(** X14. For a key that the toolkit serializes and an identifier it knows,
    the value of the extension returned by [ext_new_key] is the first 4096
    bytes of the encoding: it is never longer than 4096 bytes, and it is
    the whole encoding exactly when that has at most 4096 bytes. *)
Theorem ext_new_key_value
        (nid crit : Z) (k : EVP_PKEY) (der : list byte) (w : world T)
        (obj : ASN1_OBJECT) :
  OBJ_nid2obj nid (registry w) = Some obj ->
  i2d_PUBKEY k = Some der ->
  der <> [] ->
  exists ex,
    ext_new_key OBJ_nid2obj i2d_PUBKEY nid crit k w = (Some ex, w)
    /\ value ex = firstn 4096 der
    /\ (length (value ex) <= 4096)%nat
    /\ (value ex = der <-> (length der <= 4096)%nat).
Proof.
  intros Hobj Hk Hne.
  rewrite (ext_new_key_known _ _ _ _ _ _ _ der _ obj Hobj Hk Hne).
  eexists. split; [reflexivity|]. cbn [value].
  split; [reflexivity|]. split; [apply firstn_le_length|].
  split.
  - intros E. rewrite <- E. apply firstn_le_length.
  - intros Hlen. apply firstn_all2. exact Hlen.
Qed.

(** The bound of C4 and X11 cannot be raised: for a digest of
    [INT_MAX - 6] bytes the size of the encoding would be [INT_MAX], the
    toolkit refuses it, and [ext_new_hash], which does not look at the
    result, returns an extension with an empty value. *)
Lemma ext_new_hash_refused (nid crit : Z) (d : list byte) (w : world T)
      (obj : ASN1_OBJECT) :
  OBJ_nid2obj nid (registry w) = Some obj ->
  Z.of_nat (length d) = INT_MAX - 6 ->
  ext_new_hash OBJ_nid2obj nid crit d (Z.of_nat (length d)) w
  = (Some {| object := obj; critical := negb (crit =? 0); value := [] |}, w).
Proof.
  intros Hobj Hd.
  assert (Hput : length (asn1_put_length (Z.of_nat (length d))) = 5%nat)
    by (rewrite Hd; vm_compute; reflexivity).
  unfold ext_new_hash.
  rewrite to_int_id by (rewrite Hd; unfold INT_MIN, INT_MAX; lia).
  rewrite ASN1_OCTET_STRING_set_all. unfold i2d_ASN1_OCTET_STRING.
  destruct (INT_MAX <=?
            Z.of_nat (length ("004"%byte
                              :: asn1_put_length (Z.of_nat (length d)) ++ d)))
    eqn:E.
  - cbn [fst snd]. rewrite ext_new_returned.
    rewrite (ext_new_known _ _ _ _ _ _ _ obj Hobj). reflexivity.
  - apply Z.leb_gt in E. cbn [length] in E.
    rewrite length_app, Hput in E. unfold INT_MAX in *. lia.
Qed.

End EncoderEffects.

(** * The further properties on the sample toolkit *)

Lemma ext_init_terminated_returns_witness :
  fst (ext_init sample_toolkit [tbb_hash; ext_end] (sample_world 5)) = Some 0
  \/ fst (ext_init sample_toolkit [tbb_hash; ext_end] (sample_world 5))
     = Some 1.
Proof.
  apply (ext_init_terminated_returns tables sample_toolkit
           [tbb_hash; ext_end] (sample_world 5)).
  apply Exists_cons_tl, Exists_cons_hd. reflexivity.
Defined.

Lemma ext_init_unterminated_witness :
  fst (ext_init sample_toolkit [tbb_hash; tbb_counter] (sample_world 5))
  = None
  \/ fst (ext_init sample_toolkit [tbb_hash; tbb_counter] (sample_world 5))
     = Some 1.
Proof.
  apply (ext_init_unterminated tables sample_toolkit
           [tbb_hash; tbb_counter] (sample_world 5)).
  repeat constructor; discriminate.
Defined.

Lemma ext_init_registers_supported_witness :
  exists w3,
    ext_init sample_toolkit [tbb_hash; tbb_counter; ext_end] (sample_world 5)
    = ext_init_loop sample_toolkit [ext_end] w3
    /\ length (methods (registry w3)) = 2%nat.
Proof.
  eexists. split.
  - eapply (ext_init_registers_supported tables sample_toolkit
              [tbb_hash] [ext_end] tbb_counter (sample_world 5)
              _ _ integer_method).
    + repeat constructor; discriminate.
    + reflexivity.
    + reflexivity.
    + reflexivity.
    + left. split; reflexivity.
    + reflexivity.
    + reflexivity.
    + discriminate.
  - reflexivity.
Defined.

Lemma ext_init_failure_last_call_witness :
  exists before m t,
    calls (snd (ext_init sample_toolkit [tbb_hash; tbb_counter; ext_end]
                  (sample_world 1)))
    = calls (sample_world 1) ++ before ++ [Call_X509V3_EXT_add m]
    /\ sample_toolkit (Call_X509V3_EXT_add m) t
       = (0, registry (snd (ext_init sample_toolkit
                              [tbb_hash; tbb_counter; ext_end]
                              (sample_world 1)))).
Proof.
  apply (ext_init_failure_last_call tables sample_toolkit
           [tbb_hash; tbb_counter; ext_end] (sample_world 1)).
  reflexivity.
Defined.

Lemma ext_init_prints_iff_failure_witness :
  (Some 1 = Some 1
   /\ diag (snd (ext_init sample_toolkit [tbb_hash; tbb_counter; ext_end]
                   (sample_world 1)))
      = diag (sample_world 1) ++ [stdout])
  \/ (Some 1 <> Some 1
      /\ diag (snd (ext_init sample_toolkit [tbb_hash; tbb_counter; ext_end]
                      (sample_world 1)))
         = diag (sample_world 1)).
Proof.
  apply (ext_init_prints_iff_failure tables sample_toolkit
           [tbb_hash; tbb_counter; ext_end] (sample_world 1)).
  reflexivity.
Defined.

Lemma ext_init_methods_complete_witness :
  exists new,
    calls (snd (ext_init sample_toolkit
                  [tbb_hash; tbb_other; tbb_alias; tbb_counter; ext_end]
                  (sample_world 5)))
    = calls (sample_world 5) ++ new
    /\ forall m, In (Call_X509V3_EXT_add m) new ->
         (it m = Some ASN1_INTEGER_it /\ i2s m = Some i2s_ASN1_INTEGER
          /\ s2i m = Some s2i_ASN1_INTEGER)
         \/ (it m = Some ASN1_OCTET_STRING_it
             /\ i2s m = Some i2s_ASN1_OCTET_STRING
             /\ s2i m = Some s2i_ASN1_OCTET_STRING).
Proof.
  apply (ext_init_methods_complete tables sample_toolkit
           [tbb_hash; tbb_other; tbb_alias; tbb_counter; ext_end]
           (sample_world 5) _ (Some 0)).
  reflexivity.
Defined.

Lemma ext_new_key_null_iff_witness :
  snd (ext_new_key sample_nid2obj sample_i2d_PUBKEY 77 1
         (Some ["001"%byte]) tbb_world) = tbb_world
  /\ fst (ext_new_key sample_nid2obj sample_i2d_PUBKEY 77 1
            (Some ["001"%byte]) tbb_world) = None.
Proof.
  destruct (ext_new_key_null_iff tables sample_nid2obj (option (list byte))
              sample_i2d_PUBKEY 77 1 (Some ["001"%byte]) tbb_world)
    as [Hnull Hsame].
  split.
  - apply Hsame. reflexivity.
  - apply Hnull. right. reflexivity.
Defined.

Lemma encoders_object_and_critical_witness :
  exists ex,
    fst (ext_new_hash sample_nid2obj 1000 1 sha256_digest 32 tbb_world)
    = Some ex
    /\ sample_nid2obj 1000 (registry tbb_world) = Some (object ex)
    /\ critical ex = negb (1 =? 0).
Proof.
  eexists. split; [vm_compute; reflexivity|].
  apply (encoders_object_and_critical tables sample_nid2obj
           (option (list byte)) sample_i2d_PUBKEY 1000 1 sha256_digest 32 0
           None tbb_world tbb_world).
  left. vm_compute. reflexivity.
Defined.

Lemma ext_new_hash_encodes_prefix_witness :
  exists ex,
    ext_new_hash sample_nid2obj 1000 1 sha256_digest 20 tbb_world
    = (Some ex, tbb_world)
    /\ d2i_ASN1_OCTET_STRING (value ex)
       = Some (firstn (Z.to_nat 20) sha256_digest).
Proof.
  apply (ext_new_hash_encodes_prefix tables sample_nid2obj 1000 1
           sha256_digest 20 tbb_world
           (mkObject "1.2.3.4" (Some "tbbHash"%string)
              (Some "TBB Hash"%string) 1000)).
  - reflexivity.
  - vm_compute. split; discriminate.
  - vm_compute. discriminate.
Defined.

Lemma ext_new_nvcounter_injective_witness :
  exists ex,
    fst (ext_new_nvcounter sample_nid2obj 1001 0 255 tbb_world) = Some ex
    /\ 255 = 255.
Proof.
  eexists. split; [vm_compute; reflexivity|].
  eapply (ext_new_nvcounter_injective tables sample_nid2obj
            1001 0 255 1001 1 255 tbb_world tbb_world tbb_world tbb_world).
  - vm_compute. split; discriminate.
  - vm_compute. split; discriminate.
  - vm_compute. reflexivity.
  - vm_compute. reflexivity.
  - reflexivity.
Defined.

Lemma ext_new_nvcounter_size_witness :
  exists ex,
    fst (ext_new_nvcounter sample_nid2obj 1001 0 16777216 tbb_world)
    = Some ex
    /\ exists n body,
        value ex = "002"%byte :: n :: body
        /\ Z_of_byte n = Z.of_nat (length body)
        /\ (1 <= length body <= 4)%nat.
Proof.
  eexists. split; [vm_compute; reflexivity|].
  apply (ext_new_nvcounter_size tables sample_nid2obj 1001 0 16777216
           tbb_world tbb_world).
  - vm_compute. split; discriminate.
  - vm_compute. reflexivity.
Defined.

Lemma ext_new_key_value_witness :
  exists ex,
    ext_new_key sample_nid2obj sample_i2d_PUBKEY 1000 1
      (Some ["001"%byte; "002"%byte]) tbb_world = (Some ex, tbb_world)
    /\ value ex = firstn 4096 ["001"%byte; "002"%byte]
    /\ (length (value ex) <= 4096)%nat
    /\ (value ex = ["001"%byte; "002"%byte]
        <-> (length ["001"%byte; "002"%byte] <= 4096)%nat).
Proof.
  apply (ext_new_key_value tables sample_nid2obj (option (list byte))
           sample_i2d_PUBKEY 1000 1 (Some ["001"%byte; "002"%byte])
           ["001"%byte; "002"%byte] tbb_world
           (mkObject "1.2.3.4" (Some "tbbHash"%string)
              (Some "TBB Hash"%string) 1000)).
  - reflexivity.
  - reflexivity.
  - discriminate.
Defined.
